(** * Simplicity compiler backend: [compile_simplicity] and [compile_with_witness]

    A shallow embedding of [python_app.py]: the [CompileResult] object,
    [validate_json], [compile_simplicity] and [compile_with_witness], with the
    two effects the functions have (records appended to the module logger,
    exceptions that leave a function), and of [json.loads] as CPython runs it,
    so that the functions can be evaluated on concrete requests. *)

From Stdlib Require Import String Ascii List ZArith NArith Bool Lia PeanoNat.
From Stdlib Require Import DecimalString.
Import ListNotations.

(** ** Python strings

    A [str] is a sequence of Unicode code points. *)

Definition pychar := N.
Definition pystr := list pychar.

(** The code points of an ASCII literal. *)
Definition py (s : string) : pystr := map N_of_ascii (list_ascii_of_string s).

Definition pychar_eqb (a b : pychar) : bool := N.eqb a b.

Fixpoint pystr_eqb (a b : pystr) : bool :=
  match a, b with
  | [], [] => true
  | x :: a', y :: b' => pychar_eqb x y && pystr_eqb a' b'
  | _, _ => false
  end.

(** [str(n)] for a non-negative [int]. *)
Definition str_of_nat (n : nat) : pystr := py (NilZero.string_of_uint (Nat.to_uint n)).

(** [s[a:b]] for [0 <= a]. *)
Definition slice (s : pystr) (a b : nat) : pystr := firstn (b - a) (skipn a s).

(** [s.startswith(p)]. *)
Fixpoint startswith (p s : pystr) : bool :=
  match p, s with
  | [], _ => true
  | x :: p', y :: s' => pychar_eqb x y && startswith p' s'
  | _ :: _, [] => false
  end.

(** [str.isspace] of one code point: the code points whose bidirectional
    type is WS, B or S, or whose category is Zs. *)
Definition py_isspace (c : pychar) : bool :=
  ((9 <=? c) && (c <=? 13) || (28 <=? c) && (c <=? 32)
   || (c =? 133) || (c =? 160) || (c =? 5760)
   || (8192 <=? c) && (c <=? 8202)
   || (c =? 8232) || (c =? 8233) || (c =? 8239) || (c =? 8287)
   || (c =? 12288))%N.

Fixpoint dropwhile (p : pychar -> bool) (s : pystr) : pystr :=
  match s with
  | [] => []
  | c :: s' => if p c then dropwhile p s' else s
  end.

Definition lstrip (s : pystr) : pystr := dropwhile py_isspace s.
Definition rstrip (s : pystr) : pystr := rev (dropwhile py_isspace (rev s)).

(** [s.strip()]: leading and trailing whitespace removed. *)
Definition strip (s : pystr) : pystr := rstrip (lstrip s).

(** Truth value of a [str]: false exactly for the empty string. *)
Definition str_truthy (s : pystr) : bool :=
  match s with [] => false | _ :: _ => true end.

(** ** Python values

    What [json.loads] builds: [None], [bool], [int], [float], [str], [list]
    and [dict].  A [dict] keeps its keys in insertion order, each key once. *)

(** A [float] read from a decimal literal, before it is rounded to binary64:
    [mant * 10 ^ exp10], negated when [neg]. *)
Inductive pyfloat :=
| FNaN
| FInf (neg : bool)
| FDec (neg : bool) (mant : N) (exp10 : Z).

#[local] Unset Elimination Schemes.
Inductive pyobj :=
| PyNone
| PyBool (b : bool)
| PyInt (z : Z)
| PyFloat (f : pyfloat)
| PyStr (s : pystr)
| PyList (l : list pyobj)
| PyDict (d : list (pystr * pyobj)).
#[local] Set Elimination Schemes.

(** [d[k] = v] on the ordered representation: an existing key keeps its
    place and takes the new value, a new key goes last. *)
Fixpoint dict_setitem (d : list (pystr * pyobj)) (k : pystr) (v : pyobj)
  : list (pystr * pyobj) :=
  match d with
  | [] => [(k, v)]
  | (k', v') :: d' =>
      if pystr_eqb k' k then (k', v) :: d' else (k', v') :: dict_setitem d' k v
  end.

(** [dict(pairs)]. *)
Definition dict_of_pairs (pairs : list (pystr * pyobj)) : list (pystr * pyobj) :=
  fold_left (fun d kv => dict_setitem d (fst kv) (snd kv)) pairs [].

(** A float is false exactly when it is a zero.  A decimal rounds to zero
    (to nearest, ties to even) when it is at most [2 ^ -1075], half the
    least subnormal. *)
Definition float_truthy (f : pyfloat) : bool :=
  match f with
  | FNaN => true
  | FInf _ => true
  | FDec _ m e =>
      if (m =? 0)%N then false
      else if (0 <=? e)%Z then true
      else (10 ^ (- e) <? Z.of_N m * 2 ^ 1075)%Z
  end.

(** [bool(v)]. *)
Definition py_truthy (v : pyobj) : bool :=
  match v with
  | PyNone => false
  | PyBool b => b
  | PyInt z => negb (z =? 0)%Z
  | PyFloat f => float_truthy f
  | PyStr s => str_truthy s
  | PyList l => match l with [] => false | _ :: _ => true end
  | PyDict d => match d with [] => false | _ :: _ => true end
  end.

(** ** Exceptions *)

Inductive py_exception :=
| JSONDecodeError (msg : pystr) (doc : pystr) (pos : nat)
| TypeError (msg : pystr)
| RecursionError (msg : pystr)
| ValueError (msg : pystr).

(** [doc.count('\n', 0, pos) + 1]. *)
Definition lineno (doc : pystr) (pos : nat) : nat :=
  length (filter (pychar_eqb 10%N) (firstn pos doc)) + 1.

(** [pos - doc.rfind('\n', 0, pos)]: the distance from the last newline
    before [pos], or [pos + 1] when there is none. *)
Fixpoint colno_from (s : pystr) (col : nat) : nat :=
  match s with
  | [] => col
  | c :: s' => colno_from s' (if pychar_eqb c 10%N then 1 else S col)
  end.

Definition colno (doc : pystr) (pos : nat) : nat := colno_from (firstn pos doc) 1.

(** [str(e)]: for a [JSONDecodeError] the message its constructor formats,
    ['%s: line %d column %d (char %d)']. *)
Definition exception_str (e : py_exception) : pystr :=
  match e with
  | JSONDecodeError msg doc pos =>
      msg ++ py ": line " ++ str_of_nat (lineno doc pos)
          ++ py " column " ++ str_of_nat (colno doc pos)
          ++ py " (char " ++ str_of_nat pos ++ py ")"
  | TypeError msg => msg
  | RecursionError msg => msg
  | ValueError msg => msg
  end.

(** [len(v)]: defined on [str], [list] and [dict], a [TypeError] elsewhere. *)
Definition py_len (v : pyobj) : nat + py_exception :=
  match v with
  | PyStr s => inl (length s)
  | PyList l => inl (length l)
  | PyDict d => inl (length d)
  | PyNone => inr (TypeError (py "object of type 'NoneType' has no len()"))
  | PyBool _ => inr (TypeError (py "object of type 'bool' has no len()"))
  | PyInt _ => inr (TypeError (py "object of type 'int' has no len()"))
  | PyFloat _ => inr (TypeError (py "object of type 'float' has no len()"))
  end.

(** ** Effects

    A call runs against the records the module logger has received so far and
    either returns a value or leaves with an exception. *)

Definition log := list pystr.

Definition M (A : Type) : Type := log -> (A + py_exception) * log.

Definition ret {A} (a : A) : M A := fun l => (inl a, l).

Definition raise {A} (e : py_exception) : M A := fun l => (inr e, l).

Definition bind {A B} (m : M A) (k : A -> M B) : M B :=
  fun l =>
    match m l with
    | (inl a, l') => k a l'
    | (inr e, l') => (inr e, l')
    end.

(** A computation that touches no state. *)
Definition lift {A} (r : A + py_exception) : M A := fun l => (r, l).

(** [logger.info(msg)] at level INFO: the record is appended. *)
Definition logger_info (msg : pystr) : M unit := fun l => (inl tt, l ++ [msg]).

Declare Scope py_scope.
Delimit Scope py_scope with py.
Notation "x <- c ;; k" := (bind c (fun x => k))
  (at level 61, c at next level, right associativity) : py_scope.
Notation "c ;;; k" := (bind c (fun _ => k))
  (at level 61, right associativity) : py_scope.
Open Scope py_scope.

(** ** [CompileResult] *)

Record CompileResult := mkCompileResult {
  cmr : option pystr;
  error : option pystr;
  witness_data : pyobj
}.

(** [CompileResult(error=msg)]; the other fields keep their default [None]. *)
Definition CompileResult_error (msg : pystr) : CompileResult :=
  mkCompileResult None (Some msg) PyNone.

(** [CompileResult(cmr=c, witness_data=w)]; [witness_data] defaults to
    [None], [error] stays [None]. *)
Definition CompileResult_cmr (c : pystr) (w : pyobj) : CompileResult :=
  mkCompileResult (Some c) None w.

Definition pyobj_of_optstr (o : option pystr) : pyobj :=
  match o with None => PyNone | Some s => PyStr s end.

(** [to_dict]: the keys ["cmr"] and ["error"] always, ["witness_data"] only
    when the field is true. *)
Definition to_dict (r : CompileResult) : list (pystr * pyobj) :=
  let result := [(py "cmr", pyobj_of_optstr (cmr r));
                 (py "error", pyobj_of_optstr (error r))] in
  if py_truthy (witness_data r)
  then dict_setitem result (py "witness_data") (witness_data r)
  else result.

(** ** The compile functions *)

Definition placeholder_cmr : pystr :=
  py "c40a10263f7436b4160acbef1c36fba4be4d95df181a968afeab5eac247adff7".

(** [not s or not s.strip()]. *)
Definition is_blank (s : pystr) : bool :=
  negb (str_truthy s) || negb (str_truthy (strip s)).

Definition compile_simplicity (code : pystr) : M CompileResult :=
  if is_blank code then ret (CompileResult_error (py "Code is empty"))
  else
    logger_info (py "Compiling code: " ++ firstn 50 code ++ py "...") ;;;
    let cmr := placeholder_cmr in
    ret (CompileResult_cmr cmr PyNone).

Section Decoder.

(** [json.loads] on a [str]: the decoded value or the exception raised. *)
Variable json_loads : pystr -> pyobj + py_exception.

(** Only [json.JSONDecodeError] is caught; any other exception of the
    decoder leaves the function. *)
Definition validate_json (data : pystr) : M (bool * pystr) :=
  match json_loads data with
  | inl _ => ret (true, [])
  | inr (JSONDecodeError _ _ _ as e) =>
      ret (false, py "Invalid JSON: " ++ exception_str e)
  | inr e => raise e
  end.

Definition compile_with_witness (code witness_data : pystr) : M CompileResult :=
  if is_blank code then ret (CompileResult_error (py "Code is empty"))
  else if is_blank witness_data
  then ret (CompileResult_error (py "Witness data is empty"))
  else
    v <- validate_json witness_data ;;
    let '(is_valid, error_msg) := v in
    if negb is_valid then ret (CompileResult_error error_msg)
    else
      logger_info (py "Compiling with witness: " ++ firstn 50 code ++ py "...") ;;;
      w <- lift (json_loads witness_data) ;;
      n <- lift (py_len w) ;;
      logger_info (py "Witness variables count: " ++ str_of_nat n) ;;;
      match json_loads witness_data with
      | inr (JSONDecodeError _ _ _ as e) =>
          ret (CompileResult_error (py "Witness parse error: " ++ exception_str e))
      | inr e => raise e
      | inl witness_json =>
          let cmr := placeholder_cmr in
          ret (CompileResult_cmr cmr witness_json)
      end.

End Decoder.

(** ** [json.loads]

    The decoder of the [json] package on a [str], with the scanner and the
    string scanner of the [_json] accelerator that [json.loads] runs: the
    offsets and messages of [JSONDecodeError] are the ones it reports.

    The interpreter's own limits are left out: the [RecursionError] of a
    document nested deeper than the recursion limit allows, the [ValueError]
    of an [int] literal of more than 4300 digits, and the rounding of a
    [float] literal to binary64 (a literal stays the decimal it is written
    as, also where the interpreter reads [inf] or [0.0]).  The definitions
    below are the decoder on documents within these limits.  Nothing that is
    proved of [compile_with_witness] or of the routes rests on them: those
    theorems are stated for any decoder, and this one is run on the short
    documents of the examples only. *)

Module json.

Definition ch (a : ascii) : pychar := N_of_ascii a.
Definition QUOTE : pychar := 34%N.
Definition BACKSLASH : pychar := 92%N.

(** What a scan leaves with: [StopIteration(idx)] where no value starts,
    or an exception. *)
Inductive scan_exception :=
| StopIteration (idx : nat)
| Raised (e : py_exception).

(** A scanned value and the index after it. *)
Definition scan (A : Type) : Type := (A * nat) + scan_exception.

Definition errmsg {A} (msg : string) (doc : pystr) (pos : nat) : scan A :=
  inr (Raised (JSONDecodeError (py msg) doc pos)).

(** [WHITESPACE_STR = ' \t\n\r']. *)
Definition is_ws (c : pychar) : bool :=
  ((c =? 32) || (c =? 9) || (c =? 10) || (c =? 13))%N.

Fixpoint ws_run (rest : pystr) (idx : nat) : nat :=
  match rest with
  | c :: rest' => if is_ws c then ws_run rest' (S idx) else idx
  | [] => idx
  end.

(** [WHITESPACE.match(s, idx).end()]. *)
Definition skip_ws (s : pystr) (idx : nat) : nat := ws_run (skipn idx s) idx.

(** [s[idx] == c], false past the end. *)
Definition char_is (s : pystr) (idx : nat) (c : pychar) : bool :=
  match nth_error s idx with
  | Some x => pychar_eqb x c
  | None => false
  end.

Definition is_digit (c : pychar) : bool := ((48 <=? c) && (c <=? 57))%N.

Definition hexval (c : pychar) : option N :=
  if ((48 <=? c) && (c <=? 57))%N then Some (c - 48)%N
  else if ((97 <=? c) && (c <=? 102))%N then Some (c - 87)%N
  else if ((65 <=? c) && (c <=? 70))%N then Some (c - 55)%N
  else None.

(** Four hexadecimal digits, most significant first. *)
Definition hex4 (a b c d : pychar) : option N :=
  match hexval a, hexval b, hexval c, hexval d with
  | Some x, Some y, Some z, Some w => Some (((x * 16 + y) * 16 + z) * 16 + w)%N
  | _, _, _, _ => None
  end.

Definition is_high_surrogate (c : N) : bool := ((55296 <=? c) && (c <=? 56319))%N.
Definition is_low_surrogate (c : N) : bool := ((56320 <=? c) && (c <=? 57343))%N.

(** [0x10000 + (((hi - 0xd800) << 10) | (lo - 0xdc00))]. *)
Definition join_surrogates (hi lo : N) : N :=
  (65536 + N.lor (N.shiftl (hi - 55296) 10) (lo - 56320))%N.

(** The one-character escapes of [BACKSLASH]. *)
Definition escape (c : pychar) : option pychar :=
  if pychar_eqb c QUOTE then Some QUOTE
  else if pychar_eqb c BACKSLASH then Some BACKSLASH
  else if pychar_eqb c (ch "/") then Some (ch "/")
  else if pychar_eqb c (ch "b") then Some 8%N
  else if pychar_eqb c (ch "f") then Some 12%N
  else if pychar_eqb c (ch "n") then Some 10%N
  else if pychar_eqb c (ch "r") then Some 13%N
  else if pychar_eqb c (ch "t") then Some 9%N
  else None.

(** The loop of [scanstring] in strict mode: [rest] is [s[idx:]], [begin]
    the index of the opening quote, [acc] the characters decoded so far,
    last first. *)
Fixpoint scanstring_loop (s : pystr) (begin : nat) (rest : pystr) (idx : nat)
         (acc : pystr) {struct rest} : scan pystr :=
  match rest with
  | [] => errmsg "Unterminated string starting at" s begin
  | c :: rest1 =>
      if pychar_eqb c QUOTE then inl (rev acc, S idx)
      else if pychar_eqb c BACKSLASH then
        match rest1 with
        | [] => errmsg "Unterminated string starting at" s begin
        | esc :: rest2 =>
            if negb (pychar_eqb esc (ch "u")) then
              match escape esc with
              | Some char => scanstring_loop s begin rest2 (idx + 2) (char :: acc)
              | None => errmsg "Invalid \escape" s idx
              end
            else
              match rest2 with
              | h1 :: h2 :: h3 :: h4 :: ((_ :: _) as rest6) =>
                  match hex4 h1 h2 h3 h4 with
                  | None => errmsg "Invalid \uXXXX escape" s (idx + 1)
                  | Some uni =>
                      match rest6 with
                      | b :: u :: g1 :: g2 :: g3 :: g4 :: ((_ :: _) as rest12) =>
                          if is_high_surrogate uni && pychar_eqb b BACKSLASH
                             && pychar_eqb u (ch "u")
                          then
                            match hex4 g1 g2 g3 g4 with
                            | None => errmsg "Invalid \uXXXX escape" s (idx + 7)
                            | Some uni2 =>
                                if is_low_surrogate uni2
                                then scanstring_loop s begin rest12 (idx + 12)
                                       (join_surrogates uni uni2 :: acc)
                                else scanstring_loop s begin rest6 (idx + 6) (uni :: acc)
                            end
                          else scanstring_loop s begin rest6 (idx + 6) (uni :: acc)
                      | _ => scanstring_loop s begin rest6 (idx + 6) (uni :: acc)
                      end
                  end
              | _ => errmsg "Invalid \uXXXX escape" s (idx + 1)
              end
        end
      else if (c <=? 31)%N then errmsg "Invalid control character at" s idx
      else scanstring_loop s begin rest1 (S idx) (c :: acc)
  end.

(** [scanstring(s, end)]: [end] is the index after the opening quote. *)
Definition scanstring (s : pystr) (end_ : nat) : scan pystr :=
  scanstring_loop s (end_ - 1) (skipn end_ s) end_ [].

(** *** Numbers

    [NUMBER_RE]: an optional minus sign and an integer part, then an
    optional fraction and an optional exponent, on ASCII digits. *)

Fixpoint span_digits (rest : pystr) : pystr * pystr :=
  match rest with
  | c :: rest' =>
      if is_digit c then let (d, r) := span_digits rest' in (c :: d, r)
      else ([], rest)
  | [] => ([], [])
  end.

Definition digits_value (d : pystr) : N :=
  fold_left (fun acc c => acc * 10 + (c - 48))%N d 0%N.

(** The optional minus sign: whether it is there, and what follows it. *)
Definition match_sign (rest : pystr) : bool * pystr :=
  match rest with
  | c :: rest' => if pychar_eqb c (ch "-") then (true, rest') else (false, rest)
  | [] => (false, rest)
  end.

(** The integer part: a single [0], or a digit from 1 to 9 and any digits. *)
Definition match_integer (rest : pystr) : option (pystr * pystr) :=
  match rest with
  | c :: rest' =>
      if pychar_eqb c (ch "0") then Some ([c], rest')
      else if is_digit c then let (d, r) := span_digits rest' in Some (c :: d, r)
      else None
  | [] => None
  end.

(** The fraction, a point and one digit or more: its digits when it is
    there. *)
Definition match_frac (rest : pystr) : option pystr * pystr :=
  match rest with
  | c :: rest' =>
      if pychar_eqb c (ch ".") then
        match span_digits rest' with
        | ([], _) => (None, rest)
        | (d, r) => (Some d, r)
        end
      else (None, rest)
  | [] => (None, rest)
  end.

(** The exponent, [e] or [E], an optional sign and one digit or more: its
    value when it is there. *)
Definition match_exp (rest : pystr) : option Z * pystr :=
  match rest with
  | c :: rest1 =>
      if pychar_eqb c (ch "e") || pychar_eqb c (ch "E") then
        let '(neg, rest2) :=
          match rest1 with
          | sg :: r =>
              if pychar_eqb sg (ch "-") then (true, r)
              else if pychar_eqb sg (ch "+") then (false, r)
              else (false, rest1)
          | [] => (false, rest1)
          end in
        match span_digits rest2 with
        | ([], _) => (None, rest)
        | (d, r) =>
            let v := Z.of_N (digits_value d) in
            (Some (if neg then (- v)%Z else v), r)
        end
      else (None, rest)
  | [] => (None, rest)
  end.

(** [match_number(string, idx)] and the conversion of the match: [int] of
    the integer part when neither fraction nor exponent is there, [float]
    of the whole literal otherwise. *)
Definition match_number (s : pystr) (idx : nat) : option (pyobj * nat) :=
  let rest := skipn idx s in
  let '(neg, rest1) := match_sign rest in
  match match_integer rest1 with
  | None => None
  | Some (integer, rest2) =>
      let '(frac, rest3) := match_frac rest2 in
      let '(exp, rest4) := match_exp rest3 in
      let end_ := idx + (length rest - length rest4) in
      match frac, exp with
      | None, None =>
          let v := Z.of_N (digits_value integer) in
          Some (PyInt (if neg then (- v)%Z else v), end_)
      | _, _ =>
          let fr := match frac with Some d => d | None => [] end in
          let e := match exp with Some e => e | None => 0%Z end in
          Some (PyFloat (FDec neg (digits_value (integer ++ fr))
                              (e - Z.of_nat (length fr))), end_)
      end
  end.

(** *** Values *)

(** [except StopIteration as err: raise JSONDecodeError("Expecting value",
    s, err.value)]. *)
Definition expecting_value {A} (s : pystr) (r : scan A) : scan A :=
  match r with
  | inr (StopIteration idx) => errmsg "Expecting value" s idx
  | _ => r
  end.

(** [JSONObject((s, end), ...)]: [end] is the index after the brace;
    [members] reads the members of an object that is not empty. *)
Definition JSONObject (members : nat -> list (pystr * pyobj) -> scan pyobj)
           (s : pystr) (end_ : nat) : scan pyobj :=
  let end_ := skip_ws s end_ in
  if char_is s end_ (ch "}") then inl (PyDict [], end_ + 1)
  else members end_ [].

(** [JSONArray((s, end), scan_once)]. *)
Definition JSONArray (elements : nat -> list pyobj -> scan pyobj)
           (s : pystr) (end_ : nat) : scan pyobj :=
  let end_ := skip_ws s end_ in
  if char_is s end_ (ch "]") then inl (PyList [], end_ + 1)
  else elements end_ [].

Definition out_of_fuel {A} : scan A :=
  inr (Raised (RecursionError (py "maximum recursion depth exceeded"))).

(** [_scan_once], the member loop of [JSONObject] and the element loop of
    [JSONArray].  Each call and each turn of a loop takes one unit of
    [fuel]. *)
Fixpoint scan_once (fuel : nat) (s : pystr) (idx : nat) {struct fuel} : scan pyobj :=
  match fuel with
  | 0 => out_of_fuel
  | S fuel' =>
      match nth_error s idx with
      | None => inr (StopIteration idx)
      | Some nextchar =>
          if pychar_eqb nextchar QUOTE then
            match scanstring s (idx + 1) with
            | inl (str, end_) => inl (PyStr str, end_)
            | inr x => inr x
            end
          else if pychar_eqb nextchar (ch "{") then
            JSONObject (object_members fuel' s) s (idx + 1)
          else if pychar_eqb nextchar (ch "[") then
            JSONArray (array_elements fuel' s) s (idx + 1)
          else if pychar_eqb nextchar (ch "n")
                  && pystr_eqb (slice s idx (idx + 4)) (py "null") then
            inl (PyNone, idx + 4)
          else if pychar_eqb nextchar (ch "t")
                  && pystr_eqb (slice s idx (idx + 4)) (py "true") then
            inl (PyBool true, idx + 4)
          else if pychar_eqb nextchar (ch "f")
                  && pystr_eqb (slice s idx (idx + 5)) (py "false") then
            inl (PyBool false, idx + 5)
          else
            match match_number s idx with
            | Some r => inl r
            | None =>
                if pychar_eqb nextchar (ch "N")
                   && pystr_eqb (slice s idx (idx + 3)) (py "NaN") then
                  inl (PyFloat FNaN, idx + 3)
                else if pychar_eqb nextchar (ch "I")
                        && pystr_eqb (slice s idx (idx + 8)) (py "Infinity") then
                  inl (PyFloat (FInf false), idx + 8)
                else if pychar_eqb nextchar (ch "-")
                        && pystr_eqb (slice s idx (idx + 9)) (py "-Infinity") then
                  inl (PyFloat (FInf true), idx + 9)
                else inr (StopIteration idx)
            end
      end
  end

with object_members (fuel : nat) (s : pystr) (idx : nat)
                    (pairs : list (pystr * pyobj)) {struct fuel} : scan pyobj :=
  match fuel with
  | 0 => out_of_fuel
  | S fuel' =>
      if negb (char_is s idx QUOTE) then
        errmsg "Expecting property name enclosed in double quotes" s idx
      else
        match scanstring s (idx + 1) with
        | inr x => inr x
        | inl (key, end_) =>
            let end_ := skip_ws s end_ in
            if negb (char_is s end_ (ch ":")) then
              errmsg "Expecting ':' delimiter" s end_
            else
              let end_ := skip_ws s (end_ + 1) in
              match expecting_value s (scan_once fuel' s end_) with
              | inr x => inr x
              | inl (value, end_) =>
                  let pairs := pairs ++ [(key, value)] in
                  let end_ := skip_ws s end_ in
                  if char_is s end_ (ch "}") then
                    inl (PyDict (dict_of_pairs pairs), end_ + 1)
                  else if negb (char_is s end_ (ch ",")) then
                    errmsg "Expecting ',' delimiter" s end_
                  else object_members fuel' s (skip_ws s (end_ + 1)) pairs
              end
        end
  end

with array_elements (fuel : nat) (s : pystr) (idx : nat)
                    (values : list pyobj) {struct fuel} : scan pyobj :=
  match fuel with
  | 0 => out_of_fuel
  | S fuel' =>
      match expecting_value s (scan_once fuel' s idx) with
      | inr x => inr x
      | inl (value, end_) =>
          let values := values ++ [value] in
          let end_ := skip_ws s end_ in
          if char_is s end_ (ch "]") then inl (PyList values, end_ + 1)
          else if negb (char_is s end_ (ch ",")) then
            errmsg "Expecting ',' delimiter" s end_
          else array_elements fuel' s (skip_ws s (end_ + 1)) values
      end
  end.

(** Fuel for a document: a call or a turn of a loop starts no earlier than
    the one before it, and two in a row advance by a character, so this
    much is never used up ([loads_total] below). *)
Definition fuel_for (s : pystr) : nat := 2 * (length s + 2).

(** [JSONDecoder.raw_decode(s, idx)]. *)
Definition raw_decode (s : pystr) (idx : nat) : (pyobj * nat) + py_exception :=
  match scan_once (fuel_for s) s idx with
  | inl r => inl r
  | inr (StopIteration i) => inr (JSONDecodeError (py "Expecting value") s i)
  | inr (Raised e) => inr e
  end.

(** [JSONDecoder.decode(s)]. *)
Definition decode (s : pystr) : pyobj + py_exception :=
  match raw_decode s (skip_ws s 0) with
  | inr e => inr e
  | inl (obj, end_) =>
      let end_ := skip_ws s end_ in
      if negb (end_ =? length s) then inr (JSONDecodeError (py "Extra data") s end_)
      else inl obj
  end.

(** [json.loads(s)] for a [str] and no other argument. *)
Definition loads (s : pystr) : pyobj + py_exception :=
  if startswith [65279%N] s then
    inr (JSONDecodeError (py "Unexpected UTF-8 BOM (decode using utf-8-sig)") s 0)
  else decode s.

(** What the results of the scanner are shown to satisfy: a scanned value
    ends after [idx] and within the document, and the only exception is a
    [JSONDecodeError] on the document. *)
Definition scan_ok {A} (s : pystr) (idx : nat) (r : scan A) : Prop :=
  match r with
  | inl (_, end_) => idx < end_ <= length s
  | inr (StopIteration _) => True
  | inr (Raised (JSONDecodeError _ doc _)) => doc = s
  | inr (Raised _) => False
  end.

End json.

(** ** Requests used in the examples *)

(** A JSON string literal with the ASCII content [s]. *)
Definition quoted (s : string) : pystr := json.QUOTE :: py s ++ [json.QUOTE].

Definition src_witness_value : pystr := py "fn main() { witness::VALUE }".
Definition src_pair_ab : pystr := py "fn main() { pair(witness::A, witness::B) }".
Definition src_pair_ba : pystr := py "fn main() { pair(witness::B, witness::A) }".
Definition src_case_ab : pystr := py "fn main() { case(witness::A, witness::B) }".
Definition src_let_u32 : pystr := py "fn main() { let x: u32 = witness::A; }".
Definition src_let_u64 : pystr := py "fn main() { let x: u64 = witness::A; }".
Definition src_unit : pystr := py "mod param {} fn main() {}".

(** [{"VALUE": 42}], [{"VALUE": 7}] and [{"OTHER": 1}]. *)
Definition wit_value_42 : pystr := py "{" ++ quoted "VALUE" ++ py ": 42}".
Definition wit_value_7 : pystr := py "{" ++ quoted "VALUE" ++ py ": 7}".
Definition wit_other_1 : pystr := py "{" ++ quoted "OTHER" ++ py ": 1}".
Definition wit_not_json : pystr := py "not json".

Definition is_lower_hex (c : pychar) : bool :=
  ((48 <=? c) && (c <=? 57) || (97 <=? c) && (c <=? 102))%N.

(** What a call returns from the log [l], when it returns. *)
Definition returns {A} (m : M A) (l : log) (a : A) : Prop := fst (m l) = inl a.

(** A CMR in its printed form: 64 lowercase hexadecimal digits. *)
Definition cmr_well_formed (c : pystr) : Prop :=
  length c = 64 /\ forallb is_lower_hex c = true.

(** An error is reported exactly when no CMR is, and then without witness
    data. *)
Definition no_partial_success (r : CompileResult) : Prop :=
  (error r <> None <-> cmr r = None)
  /\ (error r <> None -> witness_data r = PyNone).

(** A result is a success when it carries no error. *)
Definition is_success (r : CompileResult) : Prop := error r = None.

(** ** Bytes, UTF-8 and Base64

    [str.encode('utf-8')], [base64.b64encode] and [bytes.decode('utf-8')],
    which [encode_base64] and the Base64 route chain.  A [bytes] object is a
    sequence of integers below 256. *)

Definition pybytes := list N.

(** What leaves the body of a route: an exception of the compile functions
    and the builtins above, or one of the builtins used only here. *)
Inductive route_exception :=
| Builtin (e : py_exception)
| AttributeError (msg : pystr)
| KeyError (key_repr : pystr)
| UnicodeEncodeError (object : pystr) (start end_ : nat)
| UnicodeDecodeError (object : pybytes) (start end_ : nat) (reason : pystr).

Definition is_surrogate (c : pychar) : bool := ((55296 <=? c) && (c <=? 57343))%N.

(** The UTF-8 form of one code point that is not a surrogate. *)
Definition utf8_char (c : pychar) : pybytes :=
  (if c <? 128 then [c]
   else if c <? 2048 then [192 + c / 64; 128 + c mod 64]
   else if c <? 65536 then [224 + c / 4096; 128 + (c / 64) mod 64; 128 + c mod 64]
   else [240 + c / 262144; 128 + (c / 4096) mod 64;
         128 + (c / 64) mod 64; 128 + c mod 64])%N.

(** The length of the run of surrogates at the head of [s]. *)
Fixpoint surrogate_run (s : pystr) : nat :=
  match s with
  | c :: s' => if is_surrogate c then S (surrogate_run s') else 0
  | [] => 0
  end.

Fixpoint utf8_encode_from (object rest : pystr) (pos : nat) : pybytes + route_exception :=
  match rest with
  | [] => inl []
  | c :: rest' =>
      if is_surrogate c
      then inr (UnicodeEncodeError object pos (pos + surrogate_run rest))
      else match utf8_encode_from object rest' (S pos) with
           | inl b => inl (utf8_char c ++ b)
           | inr e => inr e
           end
  end.

(** [s.encode('utf-8')]: strict, a run of surrogates is an error. *)
Definition utf8_encode (s : pystr) : pybytes + route_exception :=
  utf8_encode_from s s 0.

Definition b64_alphabet : pystr :=
  py "ABCDEFGHIJKLMNOPQRSTUVWXYZabcdefghijklmnopqrstuvwxyz0123456789+/".

Definition b64_char (n : N) : N := nth (N.to_nat n) b64_alphabet 0%N.

Definition b64_pad : N := 61%N.

(** [base64.b64encode(b)]: three bytes give four characters, a last group
    of one or two bytes is padded with [=]. *)
Fixpoint b64encode (b : pybytes) : pybytes :=
  match b with
  | [] => []
  | [x] => [b64_char (x / 4); b64_char ((x mod 4) * 16); b64_pad; b64_pad]%N
  | [x; y] =>
      [b64_char (x / 4); b64_char ((x mod 4) * 16 + y / 16);
       b64_char ((y mod 16) * 4); b64_pad]%N
  | x :: y :: z :: rest =>
      ([b64_char (x / 4); b64_char ((x mod 4) * 16 + y / 16);
        b64_char ((y mod 16) * 4 + z / 64); b64_char (z mod 64)]
         ++ b64encode rest)%N
  end.

Definition is_continuation (b : N) : bool := ((128 <=? b) && (b <=? 191))%N.

Definition decode_error (object : pybytes) (start end_ : nat) (reason : string)
  : pystr + route_exception :=
  inr (UnicodeDecodeError object start end_ (py reason)).

Definition unexpected_end (object : pybytes) (start : nat) : pystr + route_exception :=
  decode_error object start (length object) "unexpected end of data".

Definition decoded (c : pychar) (r : pystr + route_exception) : pystr + route_exception :=
  match r with
  | inl s => inl (c :: s)
  | inr e => inr e
  end.

(** The strict UTF-8 decoder: [rest] is [object[pos:]].  A sequence is
    refused when its first byte cannot start one, when a later byte is not a
    continuation byte or makes the sequence overlong, a surrogate or larger
    than U+10FFFF, and when the data end inside it. *)
Fixpoint utf8_decode_from (object rest : pybytes) (pos : nat) : pystr + route_exception :=
  match rest with
  | [] => inl []
  | ch :: rest1 =>
      if (ch <? 128)%N then decoded ch (utf8_decode_from object rest1 (pos + 1))
      else if (ch <? 194)%N then decode_error object pos (pos + 1) "invalid start byte"
      else if (ch <? 224)%N then
        match rest1 with
        | [] => unexpected_end object pos
        | ch2 :: rest2 =>
            if negb (is_continuation ch2)
            then decode_error object pos (pos + 1) "invalid continuation byte"
            else decoded ((ch - 192) * 64 + (ch2 - 128))%N
                         (utf8_decode_from object rest2 (pos + 2))
        end
      else if (ch <? 240)%N then
        match rest1 with
        | [] => unexpected_end object pos
        | ch2 :: rest2 =>
            if negb (is_continuation ch2)
               || (if (ch2 <? 160)%N then (ch =? 224)%N else (ch =? 237)%N)
            then decode_error object pos (pos + 1) "invalid continuation byte"
            else
              match rest2 with
              | [] => unexpected_end object pos
              | ch3 :: rest3 =>
                  if negb (is_continuation ch3)
                  then decode_error object pos (pos + 2) "invalid continuation byte"
                  else decoded ((ch - 224) * 4096 + (ch2 - 128) * 64 + (ch3 - 128))%N
                               (utf8_decode_from object rest3 (pos + 3))
              end
        end
      else if (ch <? 245)%N then
        match rest1 with
        | [] => unexpected_end object pos
        | ch2 :: rest2 =>
            if negb (is_continuation ch2)
               || (if (ch2 <? 144)%N then (ch =? 240)%N else (ch =? 244)%N)
            then decode_error object pos (pos + 1) "invalid continuation byte"
            else
              match rest2 with
              | [] => unexpected_end object pos
              | ch3 :: rest3 =>
                  if negb (is_continuation ch3)
                  then decode_error object pos (pos + 2) "invalid continuation byte"
                  else
                    match rest3 with
                    | [] => unexpected_end object pos
                    | ch4 :: rest4 =>
                        if negb (is_continuation ch4)
                        then decode_error object pos (pos + 3) "invalid continuation byte"
                        else decoded ((ch - 240) * 262144 + (ch2 - 128) * 4096
                                      + (ch3 - 128) * 64 + (ch4 - 128))%N
                                     (utf8_decode_from object rest4 (pos + 4))
                    end
              end
        end
      else decode_error object pos (pos + 1) "invalid start byte"
  end.

(** [b.decode('utf-8')]. *)
Definition utf8_decode (b : pybytes) : pystr + route_exception :=
  utf8_decode_from b b 0.

(** [encode_base64(data)]:
    [base64.b64encode(data.encode('utf-8')).decode('utf-8')]. *)
Definition encode_base64 (data : pystr) : pystr + route_exception :=
  match utf8_encode data with
  | inl b => utf8_decode (b64encode b)
  | inr e => inr e
  end.

(** A code point of Unicode, and a byte. *)
Definition is_code_point (c : pychar) : Prop := (c <= 1114111)%N.

Definition is_byte (b : N) : Prop := (b < 256)%N.

(** The value of a Base64 character and the bytes of a Base64 text: left
    inverses of [b64_char] and [b64encode], with which [b64encode] is shown
    to lose nothing.  The source has no decoder. *)
Definition b64_value (c : N) : N :=
  (if (65 <=? c) && (c <=? 90) then c - 65
   else if (97 <=? c) && (c <=? 122) then c - 71
   else if (48 <=? c) && (c <=? 57) then c + 4
   else if c =? 43 then 62 else 63)%N.

Fixpoint b64decode (c : pybytes) : pybytes :=
  match c with
  | c1 :: c2 :: c3 :: c4 :: rest =>
      let v1 := b64_value c1 in
      let v2 := b64_value c2 in
      let v3 := b64_value c3 in
      let v4 := b64_value c4 in
      (if c3 =? b64_pad then [v1 * 4 + v2 / 16]
       else if c4 =? b64_pad then [v1 * 4 + v2 / 16; (v2 mod 16) * 16 + v3 / 4]
       else [v1 * 4 + v2 / 16; (v2 mod 16) * 16 + v3 / 4; (v3 mod 4) * 64 + v4]
              ++ b64decode rest)%N
  | _ => []
  end.

(** Lowercase hexadecimal, [width] digits at least. *)
Definition hex_digit (n : N) : pychar := (if n <? 10 then 48 + n else 87 + n)%N.

Fixpoint hex_digits (width : nat) (n : N) : pystr :=
  match width with
  | 0 => []
  | S w => hex_digits w (n / 16) ++ [hex_digit (n mod 16)]
  end.

(** [str(e)] for what leaves the body of a route. *)
Definition route_exception_str (e : route_exception) : pystr :=
  match e with
  | Builtin e => exception_str e
  | AttributeError msg => msg
  | KeyError key_repr => key_repr
  | UnicodeEncodeError object start end_ =>
      if end_ =? start + 1 then
        py "'utf-8' codec can't encode character '\u"
           ++ hex_digits 4 (nth start object 0%N)
           ++ py "' in position " ++ str_of_nat start
           ++ py ": surrogates not allowed"
      else
        py "'utf-8' codec can't encode characters in position "
           ++ str_of_nat start ++ py "-" ++ str_of_nat (end_ - 1)
           ++ py ": surrogates not allowed"
  | UnicodeDecodeError object start end_ reason =>
      if end_ =? start + 1 then
        py "'utf-8' codec can't decode byte 0x"
           ++ hex_digits 2 (nth start object 0%N)
           ++ py " in position " ++ str_of_nat start ++ py ": " ++ reason
      else
        py "'utf-8' codec can't decode bytes in position "
           ++ str_of_nat start ++ py "-" ++ str_of_nat (end_ - 1)
           ++ py ": " ++ reason
  end.

(** ** The routes

    [api_compile] and [api_encode_base64] as functions of the value
    [request.get_json()] returns; the response is the object given to
    [jsonify] and the status code.  Whatever the body of a route raises is
    caught by its [except Exception]; the texts of the exceptions are the
    ones of CPython 3.11. *)

Definition type_name (v : pyobj) : pystr :=
  match v with
  | PyNone => py "NoneType"
  | PyBool _ => py "bool"
  | PyInt _ => py "int"
  | PyFloat _ => py "float"
  | PyStr _ => py "str"
  | PyList _ => py "list"
  | PyDict _ => py "dict"
  end.

Definition no_attribute (v : pyobj) (attr : string) : route_exception :=
  AttributeError (py "'" ++ type_name v ++ py "' object has no attribute '"
                     ++ py attr ++ py "'").

(** The value a [dict] holds for a key, if any. *)
Fixpoint dict_getitem (d : list (pystr * pyobj)) (k : pystr) : option pyobj :=
  match d with
  | [] => None
  | (k', v) :: d' => if pystr_eqb k' k then Some v else dict_getitem d' k
  end.

(** [data.get(key, default)]. *)
Definition py_get (data : pyobj) (key : pystr) (default : pyobj)
  : pyobj + route_exception :=
  match data with
  | PyDict d =>
      inl (match dict_getitem d key with Some v => v | None => default end)
  | _ => inr (no_attribute data "get")
  end.

(** [v.strip()]. *)
Definition py_strip (v : pyobj) : pystr + route_exception :=
  match v with
  | PyStr s => inl (strip s)
  | _ => inr (no_attribute v "strip")
  end.

(** [v.encode('utf-8')]. *)
Definition py_encode (v : pyobj) : pybytes + route_exception :=
  match v with
  | PyStr s => utf8_encode s
  | _ => inr (no_attribute v "encode")
  end.

(** [sub in s] for two strings. *)
Fixpoint str_contains (sub s : pystr) : bool :=
  startswith sub s
  || match s with
     | [] => false
     | _ :: s' => str_contains sub s'
     end.

(** [v == key] for a string [key]. *)
Definition eq_str (key : pystr) (v : pyobj) : bool :=
  match v with
  | PyStr s => pystr_eqb s key
  | _ => false
  end.

(** [key in data] for a string [key]: a key of a [dict], an element of a
    [list], a substring of a [str]. *)
Definition py_contains (data : pyobj) (key : pystr) : bool + route_exception :=
  match data with
  | PyDict d => inl (match dict_getitem d key with Some _ => true | None => false end)
  | PyList l => inl (existsb (eq_str key) l)
  | PyStr s => inl (str_contains key s)
  | _ => inr (Builtin (TypeError (py "argument of type '" ++ type_name data
                                     ++ py "' is not iterable")))
  end.

(** [data[key]] for a string [key] made of letters (its [repr] is the key
    between quotes). *)
Definition py_getitem (data : pyobj) (key : pystr) : pyobj + route_exception :=
  match data with
  | PyDict d =>
      match dict_getitem d key with
      | Some v => inl v
      | None => inr (KeyError (py "'" ++ key ++ py "'"))
      end
  | PyList _ =>
      inr (Builtin (TypeError (py "list indices must be integers or slices, not str")))
  | PyStr _ =>
      inr (Builtin (TypeError (py "string indices must be integers, not 'str'")))
  | _ => inr (Builtin (TypeError (py "'" ++ type_name data
                                     ++ py "' object is not subscriptable")))
  end.

(** The body of a route: a call of the effects above that may also leave
    with an exception of the builtins used here. *)
Definition H (A : Type) : Type := log -> (A + route_exception) * log.

Definition hret {A} (a : A) : H A := fun l => (inl a, l).

Definition hbind {A B} (m : H A) (k : A -> H B) : H B :=
  fun l =>
    match m l with
    | (inl a, l') => k a l'
    | (inr e, l') => (inr e, l')
    end.

Definition hlift {A} (r : A + route_exception) : H A := fun l => (r, l).

(** A call of one of the compile functions or of the logger. *)
Definition of_M {A} (m : M A) : H A :=
  fun l =>
    match m l with
    | (inl a, l') => (inl a, l')
    | (inr e, l') => (inr (Builtin e), l')
    end.

Notation "x <~ c ;; k" := (hbind c (fun x => k))
  (at level 61, c at next level, right associativity) : py_scope.
Notation "c ~;; k" := (hbind c (fun _ => k))
  (at level 61, right associativity) : py_scope.

(** [logger.error(msg)]: the record is appended. *)
Definition logger_error (msg : pystr) : M unit := fun l => (inl tt, l ++ [msg]).

(** The object given to [jsonify] and the status code. *)
Definition response : Type := list (pystr * pyobj) * nat.

(** [try: body except Exception as e: handler(e)]. *)
Definition try_except (body : H response) (handler : route_exception -> log -> response * log)
  : log -> response * log :=
  fun l =>
    match body l with
    | (inl r, l') => (r, l')
    | (inr e, l') => handler e l'
    end.

(** [str(b)] and the text of [None] or a string in an f-string. *)
Definition str_of_bool (b : bool) : pystr := if b then py "True" else py "False".

Definition str_of_optstr (o : option pystr) : pystr :=
  match o with
  | None => py "None"
  | Some s => s
  end.

Definition is_some {A} (o : option A) : bool :=
  match o with Some _ => true | None => false end.

(** The truth value of [None] or a string. *)
Definition optstr_truthy (o : option pystr) : bool :=
  match o with
  | None => false
  | Some s => str_truthy s
  end.

(** The handler of [api_compile]: the exception is logged and answered with
    status 500. *)
Definition compile_failed (e : route_exception) (l : log) : response * log :=
  (([(py "cmr", PyNone);
     (py "error", PyStr (py "Server error: " ++ route_exception_str e))], 500),
   snd (logger_error (py "Compilation error: " ++ route_exception_str e) l)).

(** The handler of [api_encode_base64]. *)
Definition encode_failed (e : route_exception) (l : log) : response * log :=
  (([(py "error", PyStr (route_exception_str e))], 500),
   snd (logger_error (py "Base64 encoding error: " ++ route_exception_str e) l)).

Section Routes.

Variable json_loads : pystr -> pyobj + py_exception.

(** The body of [api_compile] once [code] and [witness_data] are read:
    [witness_data] is [None] or a stripped string. *)
Definition api_compile_run (code : pystr) (witness_data : option pystr) : H response :=
  of_M (logger_info (py "API /compile: code_length=" ++ str_of_nat (length code)
                        ++ py ", with_witness="
                        ++ str_of_bool (optstr_truthy witness_data))) ~;;
  result <~ (match witness_data with
             | Some wd =>
                 if str_truthy wd
                 then of_M (compile_with_witness json_loads code wd)
                 else of_M (compile_simplicity code)
             | None => of_M (compile_simplicity code)
             end) ;;
  let response := to_dict result in
  of_M (logger_info (py "Compilation result: cmr=" ++ str_of_bool (is_some (cmr result))
                        ++ py ", error=" ++ str_of_optstr (error result))) ~;;
  hret (response, 200).

Definition api_compile_body (data : pyobj) : H response :=
  if negb (py_truthy data) then
    hret ([(py "cmr", PyNone); (py "error", PyStr (py "No JSON data provided"))], 400)
  else
    c <~ hlift (py_get data (py "code") (PyStr [])) ;;
    code <~ hlift (py_strip c) ;;
    w <~ hlift (py_get data (py "witness_data") PyNone) ;;
    witness_data <~ (if py_truthy w then
                       w' <~ hlift (py_get data (py "witness_data") (PyStr [])) ;;
                       s <~ hlift (py_strip w') ;;
                       hret (Some s)
                     else hret None) ;;
    api_compile_run code witness_data.

Definition api_compile (data : pyobj) : log -> response * log :=
  try_except (api_compile_body data) compile_failed.

End Routes.

Definition api_encode_base64_body (data : pyobj) : H response :=
  no_data <~ (if negb (py_truthy data) then hret true
              else
                present <~ hlift (py_contains data (py "data")) ;;
                hret (negb present)) ;;
  if no_data then hret ([(py "error", PyStr (py "No data provided"))], 400)
  else
    text <~ hlift (py_getitem data (py "data")) ;;
    b <~ hlift (py_encode text) ;;
    encoded <~ hlift (utf8_decode (b64encode b)) ;;
    hret ([(py "encoded", PyStr encoded)], 200).

Definition api_encode_base64 (data : pyobj) : log -> response * log :=
  try_except (api_encode_base64_body data) encode_failed.

(** * Properties *)

(** ** Blank strings *)

Lemma dropwhile_all (p : pychar -> bool) (s : pystr) :
  forallb p s = true -> dropwhile p s = [].
Proof.
  induction s as [|c s IH]; simpl; [reflexivity|].
  intros H. apply andb_prop in H. destruct H as [Hc Hs].
  rewrite Hc. auto.
Qed.

Lemma dropwhile_nil_inv (p : pychar -> bool) (s : pystr) :
  dropwhile p s = [] -> forallb p s = true.
Proof.
  induction s as [|c s IH]; simpl; [reflexivity|].
  destruct (p c); [auto | discriminate].
Qed.

Lemma dropwhile_head (p : pychar -> bool) (s : pystr) (c : pychar) (t : pystr) :
  dropwhile p s = c :: t -> p c = false.
Proof.
  induction s as [|x s IH]; simpl; [discriminate|].
  destruct (p x) eqn:E; [assumption|].
  intros H. injection H as -> _. exact E.
Qed.

Lemma forallb_rev (p : pychar -> bool) (s : pystr) :
  forallb p (rev s) = forallb p s.
Proof.
  induction s as [|c s IH]; simpl; [reflexivity|].
  rewrite forallb_app, IH. simpl. rewrite andb_true_r. apply andb_comm.
Qed.

Lemma strip_nil_iff (s : pystr) :
  strip s = [] <-> forallb py_isspace s = true.
Proof.
  unfold strip, rstrip, lstrip. split.
  - intros H.
    assert (Hd : dropwhile py_isspace (rev (dropwhile py_isspace s)) = []).
    { rewrite <- (rev_involutive (dropwhile _ (rev _))), H. reflexivity. }
    apply dropwhile_nil_inv in Hd. rewrite forallb_rev in Hd.
    destruct (dropwhile py_isspace s) as [|c t] eqn:E.
    + apply dropwhile_nil_inv. exact E.
    + apply dropwhile_head in E. simpl in Hd. rewrite E in Hd. discriminate.
  - intros H. rewrite (dropwhile_all _ _ H). reflexivity.
Qed.

(** The check [not s or not s.strip()] holds exactly for the strings made
    of whitespace only, the empty one among them. *)
Lemma is_blank_iff (s : pystr) :
  is_blank s = true <-> forallb py_isspace s = true.
Proof.
  unfold is_blank. rewrite <- strip_nil_iff. split.
  - intros H. apply orb_prop in H. destruct H as [H|H].
    + destruct s; [reflexivity | discriminate].
    + destruct (strip s); [reflexivity | discriminate].
  - intros ->. apply orb_true_r.
Qed.

Lemma is_blank_nil : is_blank [] = true.
Proof. reflexivity. Qed.

(** ** The fuel of the decoder

    The fuel [json.loads] gives the scanner is never used up, so that no
    result of the definitions above is an effect of the fuel.  This is a
    fact about these definitions, which leave the interpreter's limits out;
    it does not say that [json.loads] of the interpreter raises nothing but
    [JSONDecodeError]. *)

Section DecoderTotal.

Import json.

Ltac scan_trivial := first [reflexivity | exact I].

Lemma ws_run_bounds (rest : pystr) (idx : nat) :
  idx <= ws_run rest idx <= idx + length rest.
Proof.
  revert idx. induction rest as [|c rest IH]; intros idx; simpl; [lia|].
  destruct (is_ws c); [|lia]. specialize (IH (S idx)). lia.
Qed.

Lemma skip_ws_bounds (s : pystr) (idx : nat) :
  idx <= skip_ws s idx /\ (idx <= length s -> skip_ws s idx <= length s).
Proof.
  unfold skip_ws. pose proof (ws_run_bounds (skipn idx s) idx) as H.
  rewrite length_skipn in H. lia.
Qed.

Lemma char_is_lt (s : pystr) (idx : nat) (c : pychar) :
  char_is s idx c = true -> idx < length s.
Proof.
  unfold char_is. destruct (nth_error s idx) eqn:E; [|discriminate].
  intros _. apply nth_error_Some. congruence.
Qed.

Lemma scanstring_loop_ok (n : nat) :
  forall (s : pystr) (begin : nat) (rest : pystr) (idx : nat) (acc : pystr),
    length rest <= n ->
    match scanstring_loop s begin rest idx acc with
    | inl (_, end_) => idx < end_ <= idx + length rest
    | inr (Raised (JSONDecodeError _ doc _)) => doc = s
    | inr _ => False
    end.
Proof.
  induction n as [|n IH]; intros s begin rest idx acc Hn.
  - destruct rest; [scan_trivial | simpl in Hn; lia].
  - destruct rest as [|c rest1]; [scan_trivial|].
    cbn [scanstring_loop].
    destruct (pychar_eqb c QUOTE); [simpl; lia|].
    destruct (pychar_eqb c BACKSLASH).
    + destruct rest1 as [|esc rest2]; [scan_trivial|].
      destruct (negb (pychar_eqb esc (ch "u"))).
      * destruct (escape esc); [|scan_trivial].
        specialize (IH s begin rest2 (idx + 2) (p :: acc)).
        simpl in Hn |- *.
        destruct (scanstring_loop s begin rest2 (idx + 2) (p :: acc)) as [[? e]|[|[]]];
          try (apply IH; lia); try scan_trivial.
        assert (idx + 2 < e <= idx + 2 + length rest2) by (apply IH; lia). lia.
      * destruct rest2 as [|h1 [|h2 [|h3 [|h4 [|x rest7]]]]]; try scan_trivial.
        destruct (hex4 h1 h2 h3 h4) as [uni|]; [|scan_trivial].
        assert (Hdef : forall u,
                   match scanstring_loop s begin (x :: rest7) (idx + 6) (u :: acc) with
                   | inl (_, end_) =>
                       idx < end_ <= idx + length (c :: esc :: h1 :: h2 :: h3 :: h4 :: x :: rest7)
                   | inr (Raised (JSONDecodeError _ doc _)) => doc = s
                   | inr _ => False
                   end).
        { intros u. specialize (IH s begin (x :: rest7) (idx + 6) (u :: acc)).
          simpl in Hn.
          destruct (scanstring_loop s begin (x :: rest7) (idx + 6) (u :: acc)) as [[? e]|[|[]]];
            try (apply IH; simpl; lia); try scan_trivial.
          assert (idx + 6 < e <= idx + 6 + length (x :: rest7)) by (apply IH; simpl; lia).
          simpl in *. lia. }
        destruct rest7 as [|u [|g1 [|g2 [|g3 [|g4 [|y rest13]]]]]]; try apply Hdef.
        destruct (is_high_surrogate uni && pychar_eqb x BACKSLASH && pychar_eqb u (ch "u"));
          [|apply Hdef].
        destruct (hex4 g1 g2 g3 g4) as [uni2|]; [|scan_trivial].
        destruct (is_low_surrogate uni2); [|apply Hdef].
        specialize (IH s begin (y :: rest13) (idx + 12) (join_surrogates uni uni2 :: acc)).
        simpl in Hn.
        destruct (scanstring_loop s begin (y :: rest13) (idx + 12)
                    (join_surrogates uni uni2 :: acc)) as [[? e]|[|[]]];
          try (apply IH; simpl; lia); try scan_trivial.
        assert (idx + 12 < e <= idx + 12 + length (y :: rest13)) by (apply IH; simpl; lia).
        simpl in *. lia.
    + destruct (c <=? 31)%N; [scan_trivial|].
      specialize (IH s begin rest1 (S idx) (c :: acc)). simpl in Hn.
      destruct (scanstring_loop s begin rest1 (S idx) (c :: acc)) as [[? e]|[|[]]];
        try (apply IH; lia); try scan_trivial.
      assert (S idx < e <= S idx + length rest1) by (apply IH; lia).
      simpl. lia.
Qed.

Lemma scanstring_ok (s : pystr) (end_ : nat) :
  end_ <= length s ->
  match scanstring s end_ with
  | inl (_, e) => end_ < e <= length s
  | inr (Raised (JSONDecodeError _ doc _)) => doc = s
  | inr _ => False
  end.
Proof.
  intros H. unfold scanstring.
  pose proof (scanstring_loop_ok (length (skipn end_ s)) s (end_ - 1)
                (skipn end_ s) end_ [] (le_n _)) as L.
  rewrite length_skipn in L.
  destruct (scanstring_loop s (end_ - 1) (skipn end_ s) end_ []) as [[? e]|[|[]]];
    try exact L; try scan_trivial.
  lia.
Qed.

Lemma span_digits_length (rest d r : pystr) :
  span_digits rest = (d, r) -> length rest = length d + length r.
Proof.
  revert d r. induction rest as [|c rest IH]; intros d r; simpl.
  - intros [= <- <-]. reflexivity.
  - destruct (is_digit c).
    + destruct (span_digits rest) as [d' r'] eqn:E. intros [= <- <-].
      simpl. rewrite (IH d' r' eq_refl). reflexivity.
    + intros [= <- <-]. reflexivity.
Qed.

Lemma match_sign_length (rest rest1 : pystr) (neg : bool) :
  match_sign rest = (neg, rest1) -> length rest1 <= length rest.
Proof.
  unfold match_sign. destruct rest as [|c rest']; [intros [= _ <-]; lia|].
  destruct (pychar_eqb c (ch "-")); intros [= _ <-]; simpl; lia.
Qed.

Lemma match_integer_length (rest integer rest2 : pystr) :
  match_integer rest = Some (integer, rest2) -> length rest2 < length rest.
Proof.
  unfold match_integer. destruct rest as [|c rest']; [discriminate|].
  destruct (pychar_eqb c (ch "0")); [intros [= _ <-]; simpl; lia|].
  destruct (is_digit c); [|discriminate].
  destruct (span_digits rest') as [d r] eqn:E. intros [= _ <-].
  apply span_digits_length in E. simpl. lia.
Qed.

Lemma match_frac_length (rest rest3 : pystr) (frac : option pystr) :
  match_frac rest = (frac, rest3) -> length rest3 <= length rest.
Proof.
  unfold match_frac. destruct rest as [|c rest']; [intros [= _ <-]; lia|].
  destruct (pychar_eqb c (ch ".")); [|intros [= _ <-]; lia].
  destruct (span_digits rest') as [d r] eqn:E. apply span_digits_length in E.
  destruct d; intros [= _ <-]; simpl in *; lia.
Qed.

Lemma match_exp_length (rest rest4 : pystr) (e : option Z) :
  match_exp rest = (e, rest4) -> length rest4 <= length rest.
Proof.
  unfold match_exp. destruct rest as [|c rest1]; [intros [= _ <-]; lia|].
  destruct (pychar_eqb c (ch "e") || pychar_eqb c (ch "E")); [|intros [= _ <-]; lia].
  assert (H : forall (neg : bool) (rest2 : pystr), length rest2 <= length rest1 ->
                match span_digits rest2 with
                | ([], _) => (@None Z, c :: rest1)
                | (d, r) =>
                    let v := Z.of_N (digits_value d) in
                    (Some (if neg then (- v)%Z else v), r)
                end = (e, rest4) -> length rest4 <= length (c :: rest1)).
  { intros neg rest2 L. destruct (span_digits rest2) as [d r] eqn:E.
    apply span_digits_length in E.
    destruct d; intros [= _ <-]; simpl in *; lia. }
  destruct rest1 as [|sg r]; [apply (H false (@nil pychar)); simpl; lia|].
  destruct (pychar_eqb sg (ch "-")); [apply (H true r); simpl; lia|].
  destruct (pychar_eqb sg (ch "+")); [apply (H false r); simpl; lia|].
  apply (H false (sg :: r)); simpl; lia.
Qed.

Lemma match_number_ok (s : pystr) (idx : nat) (v : pyobj) (e : nat) :
  match_number s idx = Some (v, e) -> idx < e <= length s.
Proof.
  unfold match_number.
  destruct (match_sign (skipn idx s)) as [neg rest1] eqn:E1.
  destruct (match_integer rest1) as [[integer rest2]|] eqn:E2; [|discriminate].
  destruct (match_frac rest2) as [frac rest3] eqn:E3.
  destruct (match_exp rest3) as [ex rest4] eqn:E4.
  apply match_sign_length in E1. apply match_integer_length in E2.
  apply match_frac_length in E3. apply match_exp_length in E4.
  rewrite length_skipn in *.
  destruct frac, ex; intros [= _ <-]; lia.
Qed.

Lemma pystr_eqb_length (a b : pystr) : pystr_eqb a b = true -> length a = length b.
Proof.
  revert b. induction a as [|x a IH]; intros [|y b]; simpl; try discriminate; auto.
  intros H. apply andb_prop in H. destruct H as [_ H]. f_equal. auto.
Qed.

Lemma slice_eqb_bound (s : pystr) (idx k : nat) (lit : pystr) :
  pystr_eqb (slice s idx (idx + k)) lit = true -> length lit = k -> 0 < k ->
  idx < idx + k <= length s.
Proof.
  intros H L K. apply pystr_eqb_length in H. unfold slice in H.
  rewrite length_firstn, length_skipn in H. lia.
Qed.

Lemma scan_ok_mono {A} (s : pystr) (idx idx' : nat) (r : scan A) :
  idx <= idx' -> scan_ok s idx' r -> scan_ok s idx r.
Proof.
  unfold scan_ok. destruct r as [[? e]|[|[]]]; auto. lia.
Qed.

Lemma expecting_value_ok {A} (s : pystr) (idx : nat) (r : scan A) :
  scan_ok s idx r -> scan_ok s idx (expecting_value s r).
Proof.
  destruct r as [[? e]|[|[]]]; intros H; try exact H. reflexivity.
Qed.

Lemma scanstring_scan_ok (s : pystr) (idx : nat) :
  idx < length s -> scan_ok s idx (scanstring s (idx + 1)).
Proof.
  intros H. pose proof (scanstring_ok s (idx + 1)) as L.
  unfold scan_ok. destruct (scanstring s (idx + 1)) as [[? e]|[|[]]]; auto;
    try (apply L; lia).
  assert (idx + 1 < e <= length s) by (apply L; lia). lia.
Qed.

Lemma scan_fuel_ok (fuel : nat) :
  (forall s idx, 2 * (length s - idx) + 1 <= fuel ->
                 scan_ok s idx (scan_once fuel s idx))
  /\ (forall s idx pairs, 2 * (length s - idx) + 1 <= fuel ->
                          scan_ok s idx (object_members fuel s idx pairs))
  /\ (forall s idx values, 2 * (length s - idx) + 2 <= fuel ->
                           scan_ok s idx (array_elements fuel s idx values)).
Proof.
  induction fuel as [|fuel (IHs & IHo & IHa)].
  - repeat split; intros; lia.
  - split; [|split].
    + intros s idx Hf. cbn [scan_once].
      destruct (nth_error s idx) as [nextchar|] eqn:En; [|scan_trivial].
      assert (Hi : idx < length s) by (apply nth_error_Some; congruence).
      destruct (pychar_eqb nextchar QUOTE).
      { pose proof (scanstring_scan_ok s idx Hi) as L.
        destruct (scanstring s (idx + 1)) as [[? e]|[|[]]]; exact L. }
      destruct (pychar_eqb nextchar (ch "{")).
      { unfold JSONObject.
        pose proof (skip_ws_bounds s (idx + 1)) as [B1 B2].
        destruct (char_is s (skip_ws s (idx + 1)) (ch "}")) eqn:Ec.
        - apply char_is_lt in Ec. simpl. lia.
        - apply scan_ok_mono with (idx' := skip_ws s (idx + 1)); [lia|].
          apply IHo. lia. }
      destruct (pychar_eqb nextchar (ch "[")).
      { unfold JSONArray.
        pose proof (skip_ws_bounds s (idx + 1)) as [B1 B2].
        destruct (char_is s (skip_ws s (idx + 1)) (ch "]")) eqn:Ec.
        - apply char_is_lt in Ec. simpl. lia.
        - apply scan_ok_mono with (idx' := skip_ws s (idx + 1)); [lia|].
          apply IHa. lia. }
      destruct (pychar_eqb nextchar (ch "n") && _) eqn:E1.
      { apply andb_prop in E1. destruct E1 as [_ E1].
        apply slice_eqb_bound in E1; [exact E1 | reflexivity | lia]. }
      destruct (pychar_eqb nextchar (ch "t") && _) eqn:E2.
      { apply andb_prop in E2. destruct E2 as [_ E2].
        apply slice_eqb_bound in E2; [exact E2 | reflexivity | lia]. }
      destruct (pychar_eqb nextchar (ch "f") && _) eqn:E3.
      { apply andb_prop in E3. destruct E3 as [_ E3].
        apply slice_eqb_bound in E3; [exact E3 | reflexivity | lia]. }
      destruct (match_number s idx) as [[v e]|] eqn:Em.
      { apply match_number_ok in Em. exact Em. }
      destruct (pychar_eqb nextchar (ch "N") && _) eqn:E4.
      { apply andb_prop in E4. destruct E4 as [_ E4].
        apply slice_eqb_bound in E4; [exact E4 | reflexivity | lia]. }
      destruct (pychar_eqb nextchar (ch "I") && _) eqn:E5.
      { apply andb_prop in E5. destruct E5 as [_ E5].
        apply slice_eqb_bound in E5; [exact E5 | reflexivity | lia]. }
      destruct (pychar_eqb nextchar (ch "-") && _) eqn:E6.
      { apply andb_prop in E6. destruct E6 as [_ E6].
        apply slice_eqb_bound in E6; [exact E6 | reflexivity | lia]. }
      scan_trivial.
    + intros s idx pairs Hf. cbn [object_members].
      destruct (char_is s idx QUOTE) eqn:Eq; [|scan_trivial]. cbn [negb].
      apply char_is_lt in Eq.
      pose proof (scanstring_scan_ok s idx Eq) as L.
      destruct (scanstring s (idx + 1)) as [[key e1]|[|[]]]; try exact L.
      cbv zeta. simpl in L.
      pose proof (skip_ws_bounds s e1) as [B1 B2].
      destruct (char_is s (skip_ws s e1) (ch ":")) eqn:Ec; [|scan_trivial]. cbn [negb].
      apply char_is_lt in Ec.
      pose proof (skip_ws_bounds s (skip_ws s e1 + 1)) as [B3 B4].
      set (e3 := skip_ws s (skip_ws s e1 + 1)) in *.
      assert (Lv : scan_ok s e3 (expecting_value s (scan_once fuel s e3)))
        by (apply expecting_value_ok, IHs; lia).
      destruct (expecting_value s (scan_once fuel s e3)) as [[value e4]|[|[]]];
        try exact Lv.
      simpl in Lv.
      pose proof (skip_ws_bounds s e4) as [B5 B6].
      destruct (char_is s (skip_ws s e4) (ch "}")) eqn:Eb.
      { apply char_is_lt in Eb. simpl. lia. }
      destruct (char_is s (skip_ws s e4) (ch ",")) eqn:Ek; [|scan_trivial]. cbn [negb].
      apply char_is_lt in Ek.
      pose proof (skip_ws_bounds s (skip_ws s e4 + 1)) as [B7 B8].
      apply scan_ok_mono with (idx' := skip_ws s (skip_ws s e4 + 1)); [lia|].
      apply IHo. lia.
    + intros s idx values Hf. cbn [array_elements].
      assert (Lv : scan_ok s idx (expecting_value s (scan_once fuel s idx)))
        by (apply expecting_value_ok, IHs; lia).
      destruct (expecting_value s (scan_once fuel s idx)) as [[value e1]|[|[]]];
        try exact Lv.
      cbv zeta. simpl in Lv.
      pose proof (skip_ws_bounds s e1) as [B1 B2].
      destruct (char_is s (skip_ws s e1) (ch "]")) eqn:Eb.
      { apply char_is_lt in Eb. simpl. lia. }
      destruct (char_is s (skip_ws s e1) (ch ",")) eqn:Ek; [|scan_trivial]. cbn [negb].
      apply char_is_lt in Ek.
      pose proof (skip_ws_bounds s (skip_ws s e1 + 1)) as [B3 B4].
      apply scan_ok_mono with (idx' := skip_ws s (skip_ws s e1 + 1)); [lia|].
      apply IHa. lia.
Qed.

Theorem loads_total (s : pystr) :
  (exists v, json.loads s = inl v)
  \/ (exists msg pos, json.loads s = inr (JSONDecodeError msg s pos)).
Proof.
  unfold loads. destruct (startswith _ s); [right; eauto|].
  unfold decode, raw_decode.
  pose proof (proj1 (scan_fuel_ok (fuel_for s)) s (skip_ws s 0)) as H.
  assert (Hf : 2 * (length s - skip_ws s 0) + 1 <= fuel_for s)
    by (unfold fuel_for; lia).
  specialize (H Hf).
  destruct (scan_once (fuel_for s) s (skip_ws s 0)) as [[v e]|[i|[m d p| | |]]];
    cbn in H; try contradiction.
  - destruct (negb _); [right|left]; eauto.
  - right; eauto.
  - subst d. right; eauto.
Qed.

End DecoderTotal.

(** ** The two functions, case by case *)

Lemma compile_simplicity_run (code : pystr) (l : log) :
  compile_simplicity code l =
  if is_blank code then (inl (CompileResult_error (py "Code is empty")), l)
  else (inl (CompileResult_cmr placeholder_cmr PyNone),
        l ++ [py "Compiling code: " ++ firstn 50 code ++ py "..."]).
Proof.
  unfold compile_simplicity. destruct (is_blank code); reflexivity.
Qed.

Section DecoderFacts.

Variable json_loads : pystr -> pyobj + py_exception.

Lemma compile_with_witness_run (code w : pystr) (l : log) :
  compile_with_witness json_loads code w l =
  if is_blank code then (inl (CompileResult_error (py "Code is empty")), l)
  else if is_blank w
  then (inl (CompileResult_error (py "Witness data is empty")), l)
  else
    match json_loads w with
    | inr (JSONDecodeError msg doc pos) =>
        (inl (CompileResult_error
                (py "Invalid JSON: " ++ exception_str (JSONDecodeError msg doc pos))), l)
    | inr e => (inr e, l)
    | inl v =>
        let l1 := l ++ [py "Compiling with witness: " ++ firstn 50 code ++ py "..."] in
        match py_len v with
        | inr e => (inr e, l1)
        | inl n =>
            (inl (CompileResult_cmr placeholder_cmr v),
             l1 ++ [py "Witness variables count: " ++ str_of_nat n])
        end
    end.
Proof.
  unfold compile_with_witness, validate_json.
  destruct (is_blank code); [reflexivity|].
  destruct (is_blank w); [reflexivity|].
  unfold bind at 1.
  destruct (json_loads w) as [v|e] eqn:E.
  - unfold ret at 1. cbn [negb]. unfold bind, logger_info, lift, ret.
    cbn. destruct (py_len v) as [n|e']; reflexivity.
  - destruct e; reflexivity.
Qed.

(** Every way [compile_with_witness] returns a result. *)
Lemma compile_with_witness_returns (code w : pystr) (l : log) (r : CompileResult) :
  returns (compile_with_witness json_loads code w) l r ->
  r = CompileResult_error (py "Code is empty") /\ is_blank code = true
  \/ r = CompileResult_error (py "Witness data is empty")
     /\ is_blank code = false /\ is_blank w = true
  \/ (exists msg doc pos,
        json_loads w = inr (JSONDecodeError msg doc pos)
        /\ r = CompileResult_error
                 (py "Invalid JSON: " ++ exception_str (JSONDecodeError msg doc pos)))
     /\ is_blank code = false /\ is_blank w = false
  \/ (exists v n, json_loads w = inl v /\ py_len v = inl n
                  /\ r = CompileResult_cmr placeholder_cmr v)
     /\ is_blank code = false /\ is_blank w = false.
Proof.
  unfold returns. rewrite compile_with_witness_run.
  destruct (is_blank code); [intros [= <-]; auto|].
  destruct (is_blank w); [intros [= <-]; auto|].
  destruct (json_loads w) as [v|e] eqn:E.
  - cbv zeta. destruct (py_len v) as [n|e'] eqn:L; [|discriminate].
    intros [= <-]. right; right; right. split; [|auto]. exists v, n. auto.
  - destruct e; try discriminate.
    intros [= <-]. right; right; left. split; [|auto]. eauto.
Qed.

End DecoderFacts.

Lemma compile_simplicity_returns (code : pystr) (l : log) (r : CompileResult) :
  returns (compile_simplicity code) l r ->
  r = CompileResult_error (py "Code is empty") /\ is_blank code = true
  \/ r = CompileResult_cmr placeholder_cmr PyNone /\ is_blank code = false.
Proof.
  unfold returns. rewrite compile_simplicity_run.
  destruct (is_blank code); intros [= <-]; auto.
Qed.

(** ** The two functions with [json.loads] as the decoder *)

(** A witness that is valid JSON but a number: [len] raises, and the call
    does not return. *)
Example scalar_witness_raises :
  fst (compile_with_witness json.loads src_witness_value (py "42") [])
  = inr (TypeError (py "object of type 'int' has no len()")).
Proof. vm_compute. reflexivity. Qed.

(** The empty object is echoed in the result, and left out by [to_dict]. *)
Example empty_object_witness :
  returns (compile_with_witness json.loads src_witness_value (py "{}")) []
          (mkCompileResult (Some placeholder_cmr) None (PyDict []))
  /\ to_dict (mkCompileResult (Some placeholder_cmr) None (PyDict []))
     = [(py "cmr", PyStr placeholder_cmr); (py "error", PyNone)].
Proof. split; vm_compute; reflexivity. Qed.

(** The request of the specification's first scenario. *)
Example compile_unit_program :
  compile_simplicity (py "mod param {}" ++ [10%N] ++ py "fn main() {}") []
  = (inl (mkCompileResult (Some placeholder_cmr) None PyNone),
     [py "Compiling code: mod param {}" ++ [10%N] ++ py "fn main() {}..."]).
Proof. vm_compute. reflexivity. Qed.

(** ** Claims *)

(** C3. Determinism: what [compile_simplicity] returns for a source does not
    depend on the state it is called in (the records logged so far), so two
    calls on the same source, one after the other or from any two states,
    give the same result: the same CMR or the same error. *)
Theorem compile_deterministic (code : pystr) (l1 l2 : log) :
  fst (compile_simplicity code l1) = fst (compile_simplicity code l2)
  /\ fst (compile_simplicity code (snd (compile_simplicity code l1)))
     = fst (compile_simplicity code l1).
Proof.
  rewrite !compile_simplicity_run.
  destruct (is_blank code) eqn:E; cbn [fst snd];
    rewrite ?compile_simplicity_run, ?E; split; reflexivity.
Qed.

(** C1, as the code has it.  The CMR of every source that is not blank is the
    one placeholder constant: two sources that differ in a combinator kind,
    in the order of operands or in a type annotation get the same CMR. *)
Theorem compile_cmr_constant (S1 S2 : pystr) (l1 l2 : log) :
  is_blank S1 = false -> is_blank S2 = false ->
  exists r1 r2,
    returns (compile_simplicity S1) l1 r1
    /\ returns (compile_simplicity S2) l2 r2
    /\ cmr r1 = Some placeholder_cmr
    /\ cmr r2 = cmr r1.
Proof.
  intros H1 H2. unfold returns. rewrite !compile_simplicity_run, H1, H2.
  do 2 eexists. repeat split.
Qed.

Lemma compile_cmr_constant_witness :
  is_blank src_pair_ab = false /\ is_blank src_pair_ba = false
  /\ exists r1 r2,
       returns (compile_simplicity src_pair_ab) [] r1
       /\ returns (compile_simplicity src_pair_ba) [] r2
       /\ cmr r1 = Some placeholder_cmr
       /\ cmr r2 = cmr r1.
Proof.
  split; [reflexivity|]. split; [reflexivity|].
  apply (compile_cmr_constant src_pair_ab src_pair_ba [] []); reflexivity.
Defined.

Lemma pystr_neq (a b : pystr) : pystr_eqb a b = false -> a <> b.
Proof.
  intros H ->. revert H. induction b as [|c b IH]; simpl; [discriminate|].
  unfold pychar_eqb. rewrite N.eqb_refl. exact IH.
Qed.

(** C1, as stated, fails: sources that differ in the order of operands, in
    the combinator and in a type annotation all compile to the same CMR. *)
Lemma structural_sensitivity_fails :
  src_pair_ab <> src_pair_ba /\ src_pair_ab <> src_case_ab
  /\ src_let_u32 <> src_let_u64
  /\ exists r1 r2 r3 r4 r5,
       returns (compile_simplicity src_pair_ab) [] r1
       /\ returns (compile_simplicity src_pair_ba) [] r2
       /\ returns (compile_simplicity src_case_ab) [] r3
       /\ returns (compile_simplicity src_let_u32) [] r4
       /\ returns (compile_simplicity src_let_u64) [] r5
       /\ ~ cmr r1 <> cmr r2 /\ ~ cmr r1 <> cmr r3 /\ ~ cmr r4 <> cmr r5.
Proof.
  split; [apply pystr_neq; reflexivity|].
  split; [apply pystr_neq; reflexivity|].
  split; [apply pystr_neq; reflexivity|].
  do 5 eexists. unfold returns.
  repeat (split; [vm_compute; reflexivity|]).
  cbn [cmr]. repeat split; intros H; apply H; reflexivity.
Qed.

Section Claims.

Variable json_loads : pystr -> pyobj + py_exception.

(** C2. Witness independence.  For every source and any two witness
    strings that are not blank and decode to JSON objects, the two calls
    of [compile_with_witness] return, with the same CMR, which is the CMR
    of [compile_simplicity] on the source; and whenever
    [compile_with_witness] returns a CMR at all, for any witness string,
    it is the CMR of [compile_simplicity] on the same source. *)
Theorem witness_independence (code : pystr) :
  (forall (W1 W2 : pystr) d1 d2 (l0 l1 l2 : log),
      is_blank W1 = false -> json_loads W1 = inl (PyDict d1) ->
      is_blank W2 = false -> json_loads W2 = inl (PyDict d2) ->
      exists r0 r1 r2,
        returns (compile_simplicity code) l0 r0
        /\ returns (compile_with_witness json_loads code W1) l1 r1
        /\ returns (compile_with_witness json_loads code W2) l2 r2
        /\ cmr r1 = cmr r2 /\ cmr r2 = cmr r0)
  /\ (forall (W : pystr) (l l0 : log) r c,
         returns (compile_with_witness json_loads code W) l r ->
         cmr r = Some c ->
         exists r0, returns (compile_simplicity code) l0 r0 /\ cmr r0 = Some c).
Proof.
  split.
  - intros W1 W2 d1 d2 l0 l1 l2 B1 E1 B2 E2. unfold returns.
    rewrite compile_simplicity_run, !compile_with_witness_run, B1, B2, E1, E2.
    destruct (is_blank code); cbn; do 3 eexists; repeat split.
  - intros W l l0 r c Hr Hc.
    apply compile_with_witness_returns in Hr.
    unfold returns. rewrite compile_simplicity_run.
    destruct Hr as [[-> _]|[[-> _]|[[(m & d & p & _ & ->) _]|[(v & n & _ & _ & ->) [B _]]]]];
      try discriminate Hc.
    rewrite B. eexists. split; [reflexivity|]. exact Hc.
Qed.

(** C4, as the code has it.  No witness is bound: for every source that is
    not blank and every witness string that is not blank and decodes to a
    JSON object, whatever names the object has, [compile_with_witness]
    returns a success carrying the placeholder CMR, no error and the
    decoded object. *)
Theorem unbound_witness_accepted (code W : pystr) d (l : log) :
  is_blank code = false -> is_blank W = false ->
  json_loads W = inl (PyDict d) ->
  returns (compile_with_witness json_loads code W) l
          (mkCompileResult (Some placeholder_cmr) None (PyDict d)).
Proof.
  intros Bc Bw E. unfold returns.
  rewrite compile_with_witness_run, Bc, Bw, E. reflexivity.
Qed.

(** C5. Empty source: for the empty source and for every source made of
    whitespace only, [compile_simplicity] returns the result with error
    ["Code is empty"] and no CMR, which [to_dict] renders as
    [{"cmr": None, "error": "Code is empty"}]; [compile_with_witness]
    returns the same result whatever the witness string and the decoder,
    and logs nothing. *)
Theorem empty_source_error (code : pystr) :
  forallb py_isspace code = true ->
  let r := mkCompileResult None (Some (py "Code is empty")) PyNone in
  (forall l, compile_simplicity code l = (inl r, l))
  /\ (forall W l, compile_with_witness json_loads code W l = (inl r, l))
  /\ to_dict r = [(py "cmr", PyNone); (py "error", PyStr (py "Code is empty"))].
Proof.
  intros H. apply is_blank_iff in H. cbv zeta. split; [|split].
  - intros l. rewrite compile_simplicity_run, H. reflexivity.
  - intros W l. rewrite compile_with_witness_run, H. reflexivity.
  - reflexivity.
Qed.

(** C6, as the code has it.  For every source that is not blank and every
    witness string that is not blank and on which [json.loads] raises
    [JSONDecodeError], [compile_with_witness] returns the result with no
    CMR, no witness data and the error ["Invalid JSON: "] followed by the
    text of the exception; nothing is logged. *)
Theorem invalid_json_error (code W : pystr) msg doc pos (l : log) :
  is_blank code = false -> is_blank W = false ->
  json_loads W = inr (JSONDecodeError msg doc pos) ->
  compile_with_witness json_loads code W l =
  (inl (mkCompileResult None
          (Some (py "Invalid JSON: " ++ exception_str (JSONDecodeError msg doc pos)))
          PyNone), l).
Proof.
  intros Bc Bw E. rewrite compile_with_witness_run, Bc, Bw, E. reflexivity.
Qed.

(** C7. No partial success: every result returned by [compile_simplicity]
    or [compile_with_witness] has an error exactly when it has no CMR, and
    a result with an error has no witness data. *)
Theorem no_partial_success_returned (code W : pystr) (l : log) (r : CompileResult) :
  returns (compile_simplicity code) l r
  \/ returns (compile_with_witness json_loads code W) l r ->
  no_partial_success r.
Proof.
  intros [H|H].
  - apply compile_simplicity_returns in H.
    destruct H as [[-> _]|[-> _]]; unfold no_partial_success; cbn;
      intuition congruence.
  - apply compile_with_witness_returns in H.
    destruct H as [[-> _]|[[-> _]|[[(m & d & p & _ & ->) _]|[(v & n & _ & _ & ->) _]]]];
      unfold no_partial_success; cbn; intuition congruence.
Qed.

(** C8. Witness echo: for a source that is not blank and a witness string
    that [json.loads] decodes to [v], a success returned by
    [compile_with_witness] carries [v] as its witness data. *)
Theorem witness_echo (code W : pystr) (v : pyobj) (l : log) (r : CompileResult) :
  is_blank code = false ->
  json_loads W = inl v ->
  returns (compile_with_witness json_loads code W) l r ->
  is_success r ->
  witness_data r = v.
Proof.
  intros Bc E H Hs. apply compile_with_witness_returns in H.
  destruct H as [[-> _]|[[-> _]|[[(m & d & p & E' & ->) _]|[(v' & n & E' & _ & ->) _]]]];
    try discriminate Hs.
  cbn. congruence.
Qed.

(** C9. CMR format: a CMR returned by [compile_simplicity] or by
    [compile_with_witness] is a string of 64 lowercase hexadecimal digits,
    the same length for every success. *)
Theorem cmr_format (code W : pystr) (l : log) (r : CompileResult) (c : pystr) :
  returns (compile_simplicity code) l r
  \/ returns (compile_with_witness json_loads code W) l r ->
  cmr r = Some c ->
  cmr_well_formed c.
Proof.
  intros H Hc.
  assert (Hp : c = placeholder_cmr).
  { destruct H as [H|H].
    - apply compile_simplicity_returns in H.
      destruct H as [[-> _]|[-> _]];
        cbn [cmr CompileResult_cmr CompileResult_error] in Hc; congruence.
    - apply compile_with_witness_returns in H.
      destruct H as [[-> _]|[[-> _]|[[(m & d & p & _ & ->) _]|[(v & n & _ & _ & ->) _]]]];
        cbn [cmr CompileResult_cmr CompileResult_error] in Hc; congruence. }
  subst c. split; reflexivity.
Qed.

(** C10, as the code has it.  Empty witness: for a source that is not blank
    and a witness string that is empty or made of whitespace only,
    [compile_with_witness] returns the result with error
    ["Witness data is empty"] and no CMR, and logs nothing; it is not the
    result of [compile_simplicity] on the source. *)
Theorem empty_witness_error (code W : pystr) (l : log) :
  is_blank code = false ->
  forallb py_isspace W = true ->
  compile_with_witness json_loads code W l =
  (inl (mkCompileResult None (Some (py "Witness data is empty")) PyNone), l)
  /\ forall l', fst (compile_with_witness json_loads code W l)
                <> fst (compile_simplicity code l').
Proof.
  intros Bc H. apply is_blank_iff in H.
  rewrite compile_with_witness_run, Bc, H.
  split; [reflexivity|]. intros l'.
  rewrite compile_simplicity_run, Bc. cbn [fst]. discriminate.
Qed.

End Claims.

(** ** The claims on concrete requests, with [json.loads] as the decoder *)

Lemma witness_independence_witness :
  is_blank wit_value_42 = false
  /\ json.loads wit_value_42 = inl (PyDict [(py "VALUE", PyInt 42)])
  /\ is_blank wit_value_7 = false
  /\ json.loads wit_value_7 = inl (PyDict [(py "VALUE", PyInt 7)])
  /\ exists r0 r1 r2,
       returns (compile_simplicity src_witness_value) [] r0
       /\ returns (compile_with_witness json.loads src_witness_value wit_value_42) [] r1
       /\ returns (compile_with_witness json.loads src_witness_value wit_value_7) [] r2
       /\ cmr r1 = cmr r2 /\ cmr r2 = cmr r0.
Proof.
  repeat (split; [vm_compute; reflexivity|]).
  apply (proj1 (witness_independence json.loads src_witness_value)
           wit_value_42 wit_value_7
           [(py "VALUE", PyInt 42)] [(py "VALUE", PyInt 7)] [] [] []);
    vm_compute; reflexivity.
Defined.

(** C4, as stated, fails: on the source that refers to [witness::VALUE] and
    the witness [{"OTHER": 1}], which has no entry for [VALUE],
    [compile_with_witness] returns a success, not a bind error. *)
Lemma missing_witness_not_reported :
  exists r,
    returns (compile_with_witness json.loads src_witness_value wit_other_1) [] r
    /\ error r = None
    /\ cmr r = Some placeholder_cmr
    /\ witness_data r = PyDict [(py "OTHER", PyInt 1)].
Proof.
  eexists. split; [vm_compute; reflexivity|]. repeat split.
Qed.

Lemma unbound_witness_accepted_witness :
  is_blank src_witness_value = false /\ is_blank wit_other_1 = false
  /\ json.loads wit_other_1 = inl (PyDict [(py "OTHER", PyInt 1)])
  /\ returns (compile_with_witness json.loads src_witness_value wit_other_1) []
             (mkCompileResult (Some placeholder_cmr) None
                              (PyDict [(py "OTHER", PyInt 1)])).
Proof.
  repeat (split; [vm_compute; reflexivity|]).
  apply (unbound_witness_accepted json.loads src_witness_value wit_other_1
           [(py "OTHER", PyInt 1)] []);
    vm_compute; reflexivity.
Defined.

Lemma empty_source_error_witness :
  forallb py_isspace [32; 9; 10; 160]%N = true
  /\ let r := mkCompileResult None (Some (py "Code is empty")) PyNone in
     (forall l, compile_simplicity [32; 9; 10; 160]%N l = (inl r, l))
     /\ (forall W l,
            compile_with_witness json.loads [32; 9; 10; 160]%N W l = (inl r, l))
     /\ to_dict r = [(py "cmr", PyNone); (py "error", PyStr (py "Code is empty"))].
Proof.
  split; [reflexivity|].
  apply (empty_source_error json.loads [32; 9; 10; 160]%N). reflexivity.
Defined.

(** C6, as stated, fails on a blank witness: the empty string and a string
    of spaces are not valid JSON ([json.loads] raises [JSONDecodeError] on
    them), and the error reported for them does not begin with
    ["Invalid JSON: "]. *)
Lemma blank_witness_not_invalid_json :
  is_blank src_witness_value = false
  /\ (exists msg pos, json.loads [] = inr (JSONDecodeError msg [] pos))
  /\ (exists msg pos, json.loads (py "  ") = inr (JSONDecodeError msg (py "  ") pos))
  /\ exists r1 r2 e1 e2,
       returns (compile_with_witness json.loads src_witness_value []) [] r1
       /\ returns (compile_with_witness json.loads src_witness_value (py "  ")) [] r2
       /\ error r1 = Some e1 /\ error r2 = Some e2
       /\ startswith (py "Invalid JSON: ") e1 = false
       /\ startswith (py "Invalid JSON: ") e2 = false.
Proof.
  split; [reflexivity|].
  split; [do 2 eexists; vm_compute; reflexivity|].
  split; [do 2 eexists; vm_compute; reflexivity|].
  do 4 eexists.
  split; [vm_compute; reflexivity|].
  split; [vm_compute; reflexivity|].
  split; [reflexivity|]. split; [reflexivity|].
  split; vm_compute; reflexivity.
Qed.

Lemma invalid_json_error_witness :
  is_blank src_witness_value = false /\ is_blank wit_not_json = false
  /\ json.loads wit_not_json = inr (JSONDecodeError (py "Expecting value") wit_not_json 0)
  /\ compile_with_witness json.loads src_witness_value wit_not_json [] =
     (inl (mkCompileResult None
             (Some (py "Invalid JSON: "
                    ++ exception_str
                         (JSONDecodeError (py "Expecting value") wit_not_json 0)))
             PyNone), []).
Proof.
  repeat (split; [vm_compute; reflexivity|]).
  apply (invalid_json_error json.loads src_witness_value wit_not_json
           (py "Expecting value") wit_not_json 0 []);
    vm_compute; reflexivity.
Defined.

Lemma no_partial_success_returned_witness :
  (returns (compile_simplicity src_witness_value) []
           (mkCompileResult None (Some (py "Witness data is empty")) PyNone)
   \/ returns (compile_with_witness json.loads src_witness_value (py " ")) []
              (mkCompileResult None (Some (py "Witness data is empty")) PyNone))
  /\ no_partial_success
       (mkCompileResult None (Some (py "Witness data is empty")) PyNone).
Proof.
  assert (H : returns (compile_with_witness json.loads src_witness_value (py " ")) []
                      (mkCompileResult None (Some (py "Witness data is empty")) PyNone))
    by (vm_compute; reflexivity).
  split; [right; exact H|].
  apply (no_partial_success_returned json.loads src_witness_value (py " ") []).
  right. exact H.
Defined.

Lemma witness_echo_witness :
  is_blank src_witness_value = false
  /\ json.loads wit_value_42 = inl (PyDict [(py "VALUE", PyInt 42)])
  /\ returns (compile_with_witness json.loads src_witness_value wit_value_42) []
             (mkCompileResult (Some placeholder_cmr) None
                              (PyDict [(py "VALUE", PyInt 42)]))
  /\ is_success (mkCompileResult (Some placeholder_cmr) None
                                 (PyDict [(py "VALUE", PyInt 42)]))
  /\ witness_data (mkCompileResult (Some placeholder_cmr) None
                                   (PyDict [(py "VALUE", PyInt 42)]))
     = PyDict [(py "VALUE", PyInt 42)].
Proof.
  repeat (split; [vm_compute; reflexivity|]).
  apply (witness_echo json.loads src_witness_value wit_value_42
           (PyDict [(py "VALUE", PyInt 42)]) []
           (mkCompileResult (Some placeholder_cmr) None
                            (PyDict [(py "VALUE", PyInt 42)])));
    vm_compute; reflexivity.
Defined.

Lemma cmr_format_witness :
  (returns (compile_simplicity src_unit) []
           (mkCompileResult (Some placeholder_cmr) None PyNone)
   \/ returns (compile_with_witness json.loads src_unit wit_value_42) []
              (mkCompileResult (Some placeholder_cmr) None PyNone))
  /\ cmr (mkCompileResult (Some placeholder_cmr) None PyNone) = Some placeholder_cmr
  /\ cmr_well_formed placeholder_cmr.
Proof.
  assert (H : returns (compile_simplicity src_unit) []
                      (mkCompileResult (Some placeholder_cmr) None PyNone))
    by (vm_compute; reflexivity).
  split; [left; exact H|]. split; [reflexivity|].
  apply (cmr_format json.loads src_unit wit_value_42 []
           (mkCompileResult (Some placeholder_cmr) None PyNone) placeholder_cmr).
  - left. exact H.
  - reflexivity.
Defined.

(** C10, as stated, fails on a source that is not empty but blank: on the
    source of one space the guard on the code answers first, and the error
    for an empty witness and for a witness of spaces is ["Code is empty"],
    not ["Witness data is empty"]. *)
Lemma blank_source_not_witness_empty :
  py " " <> []
  /\ forallb py_isspace [] = true /\ forallb py_isspace (py "  ") = true
  /\ exists r1 r2,
       returns (compile_with_witness json.loads (py " ") []) [] r1
       /\ returns (compile_with_witness json.loads (py " ") (py "  ")) [] r2
       /\ error r1 = Some (py "Code is empty")
       /\ error r2 = Some (py "Code is empty")
       /\ error r1 <> Some (py "Witness data is empty")
       /\ error r2 <> Some (py "Witness data is empty").
Proof.
  split; [discriminate|]. split; [reflexivity|]. split; [reflexivity|].
  do 2 eexists.
  split; [vm_compute; reflexivity|].
  split; [vm_compute; reflexivity|].
  split; [reflexivity|]. split; [reflexivity|].
  split; discriminate.
Qed.

Lemma empty_witness_error_witness :
  is_blank src_witness_value = false
  /\ forallb py_isspace [32; 10]%N = true
  /\ compile_with_witness json.loads src_witness_value [32; 10]%N [] =
     (inl (mkCompileResult None (Some (py "Witness data is empty")) PyNone), [])
  /\ forall l', fst (compile_with_witness json.loads src_witness_value [32; 10]%N [])
                <> fst (compile_simplicity src_witness_value l').
Proof.
  split; [reflexivity|]. split; [reflexivity|].
  apply (empty_witness_error json.loads src_witness_value [32; 10]%N []); reflexivity.
Defined.

(** * The rest of the code *)

(** ** UTF-8 and Base64 *)

Lemma utf8_encode_from_ok (object rest : pystr) (pos : nat) :
  existsb is_surrogate rest = false ->
  utf8_encode_from object rest pos = inl (flat_map utf8_char rest).
Proof.
  revert pos. induction rest as [|c rest IH]; intros pos H; simpl in *; [reflexivity|].
  apply orb_false_elim in H. destruct H as [Hc Hr].
  rewrite Hc, (IH (S pos) Hr). reflexivity.
Qed.

Lemma utf8_encode_from_error (object rest : pystr) (pos : nat) :
  existsb is_surrogate rest = true ->
  exists k,
    utf8_encode_from object rest pos
    = inr (UnicodeEncodeError object (pos + k) (pos + k + surrogate_run (skipn k rest)))
    /\ k < length rest
    /\ is_surrogate (nth k rest 0%N) = true
    /\ existsb is_surrogate (firstn k rest) = false.
Proof.
  revert pos. induction rest as [|c rest IH]; intros pos H; simpl in H; [discriminate|].
  destruct (is_surrogate c) eqn:Hc.
  - exists 0. cbn [utf8_encode_from]. rewrite Hc. rewrite !Nat.add_0_r.
    repeat split; simpl; auto with arith.
  - simpl in H. destruct (IH (S pos) H) as (k & E & Hk & Hn & Hf).
    exists (S k). cbn [utf8_encode_from]. rewrite Hc, E.
    replace (S pos + k) with (pos + S k) by lia.
    repeat split; simpl; auto with arith. rewrite Hc. exact Hf.
Qed.

Lemma utf8_decode_from_ascii (object b : pybytes) (pos : nat) :
  Forall (fun c => (c < 128)%N) b -> utf8_decode_from object b pos = inl b.
Proof.
  intros H. revert pos. induction H as [|c b Hc Hb IH]; intros pos; [reflexivity|].
  cbn [utf8_decode_from]. apply N.ltb_lt in Hc. rewrite Hc, IH. reflexivity.
Qed.

Lemma b64_char_ascii (n : N) : (b64_char n < 128)%N.
Proof.
  unfold b64_char.
  destruct (nth_in_or_default (N.to_nat n) b64_alphabet 0%N) as [H | Hd]; [|rewrite Hd; reflexivity].
  revert H. generalize (nth (N.to_nat n) b64_alphabet 0%N). intros c H.
  assert (A : Forall (fun c => (c < 128)%N) b64_alphabet).
  { apply Forall_forall. intros x Hx.
    assert (F : forallb (fun c => (c <? 128)%N) b64_alphabet = true) by (vm_compute; reflexivity).
    rewrite forallb_forall in F. apply N.ltb_lt, F, Hx. }
  rewrite Forall_forall in A. auto.
Qed.

Lemma list_ind3 {A} (P : list A -> Prop) :
  P [] -> (forall x, P [x]) -> (forall x y, P [x; y]) ->
  (forall x y z l, P l -> P (x :: y :: z :: l)) ->
  forall l, P l.
Proof.
  intros H0 H1 H2 H3.
  assert (H : forall l, P l /\ (forall x, P (x :: l)) /\ (forall x y, P (x :: y :: l))).
  { induction l as [|a l (Ha & Hb & Hc)]; [auto|].
    split; [apply Hb|]. split; [intros; apply Hc|]. intros x y. apply H3, Ha. }
  intros l. apply H.
Qed.

Lemma b64encode_ascii (b : pybytes) : Forall (fun c => (c < 128)%N) (b64encode b).
Proof.
  induction b as [|x|x y|x y z l IH] using list_ind3; cbn [b64encode].
  - constructor.
  - repeat constructor; try apply b64_char_ascii; reflexivity.
  - repeat constructor; try apply b64_char_ascii; reflexivity.
  - rewrite <- !app_comm_cons. cbn [app].
    repeat (constructor; [apply b64_char_ascii|]). exact IH.
Qed.

Lemma b64encode_length (b : pybytes) : length (b64encode b) = 4 * ((length b + 2) / 3).
Proof.
  induction b as [|x|x y|x y z l IH] using list_ind3; cbn [b64encode]; try reflexivity.
  rewrite length_app, IH. cbn [length].
  replace (S (S (S (length l))) + 2) with (length l + 2 + 1 * 3) by lia.
  rewrite Nat.div_add by lia. lia.
Qed.

Lemma b64encode_app (a b : pybytes) :
  length a mod 3 = 0 -> b64encode (a ++ b) = b64encode a ++ b64encode b.
Proof.
  induction a as [|x|x y|x y z l IH] using list_ind3; intros H.
  - reflexivity.
  - discriminate H.
  - discriminate H.
  - cbn [length] in H.
    replace (S (S (S (length l)))) with (length l + 1 * 3) in H by lia.
    rewrite Nat.Div0.mod_add in H.
    cbn [app b64encode]. rewrite IH by exact H. reflexivity.
Qed.

Ltac Zify.zify_post_hook ::= Z.to_euclidean_division_equations.

Lemma sextet_cases (n : N) : (n < 64)%N -> In n (map N.of_nat (seq 0 64)).
Proof.
  intros H. rewrite <- (N2Nat.id n). apply in_map, in_seq. lia.
Qed.

Lemma b64_value_char (n : N) : (n < 64)%N -> b64_value (b64_char n) = n.
Proof.
  intros H. apply sextet_cases in H.
  assert (F : forallb (fun n => (b64_value (b64_char n) =? n)%N)
                (map N.of_nat (seq 0 64)) = true) by (vm_compute; reflexivity).
  rewrite forallb_forall in F. apply N.eqb_eq, F, H.
Qed.

Lemma b64_char_not_pad (n : N) : (n < 64)%N -> (b64_char n =? b64_pad)%N = false.
Proof.
  intros H. apply sextet_cases in H.
  assert (F : forallb (fun n => negb (b64_char n =? b64_pad)%N)
                (map N.of_nat (seq 0 64)) = true) by (vm_compute; reflexivity).
  rewrite forallb_forall in F. apply negb_true_iff, F, H.
Qed.

Lemma b64_char_in_alphabet (n : N) : (n < 64)%N -> In (b64_char n) b64_alphabet.
Proof.
  intros H. unfold b64_char. apply nth_In.
  change (length b64_alphabet) with 64. lia.
Qed.

Lemma b64decode_encode (b : pybytes) :
  Forall is_byte b -> b64decode (b64encode b) = b.
Proof.
  unfold is_byte.
  induction b as [|x|x y|x y z l IH] using list_ind3; intros H.
  - reflexivity.
  - inversion_clear H as [|? ? Hx _].
    cbn [b64encode b64decode]. cbv zeta.
    rewrite N.eqb_refl, !b64_value_char by lia. f_equal. lia.
  - inversion_clear H as [|? ? Hx H']. inversion_clear H' as [|? ? Hy _].
    cbn [b64encode b64decode]. cbv zeta.
    rewrite N.eqb_refl, b64_char_not_pad, !b64_value_char by lia.
    f_equal; [lia|]. f_equal. lia.
  - inversion_clear H as [|? ? Hx H']. inversion_clear H' as [|? ? Hy H''].
    inversion_clear H'' as [|? ? Hz Hl].
    cbn [b64encode app b64decode]. cbv zeta.
    rewrite !b64_char_not_pad, !b64_value_char by lia.
    rewrite IH by exact Hl.
    cbn [app]. f_equal; [lia|]. f_equal; [lia|]. f_equal. lia.
Qed.

Lemma is_surrogate_false (c : pychar) :
  is_surrogate c = false -> (c < 55296 \/ 57343 < c)%N.
Proof.
  unfold is_surrogate. intros H. apply andb_false_iff in H.
  destruct H as [H|H]; [left; apply N.leb_gt in H | right; apply N.leb_gt in H]; lia.
Qed.

Lemma is_continuation_true (b : N) : (128 <= b < 192)%N -> is_continuation b = true.
Proof.
  intros H. unfold is_continuation. apply andb_true_intro.
  split; apply N.leb_le; lia.
Qed.

Lemma ltb_false (a b : N) : (b <= a)%N -> (a <? b)%N = false.
Proof. apply N.ltb_ge. Qed.

Lemma ltb_true (a b : N) : (a < b)%N -> (a <? b)%N = true.
Proof. apply N.ltb_lt. Qed.

Lemma utf8_decode_from_char (object rest : pybytes) (c : pychar) (pos : nat) :
  is_code_point c -> is_surrogate c = false ->
  utf8_decode_from object (utf8_char c ++ rest) pos
  = decoded c (utf8_decode_from object rest (pos + length (utf8_char c))).
Proof.
  unfold is_code_point. intros Hc Hs. apply is_surrogate_false in Hs.
  unfold utf8_char.
  destruct (N.ltb_spec c 128) as [H1|H1].
  { cbn [app utf8_decode_from length]. rewrite (ltb_true c 128) by lia. reflexivity. }
  destruct (N.ltb_spec c 2048) as [H2|H2].
  { cbn [app utf8_decode_from length].
    rewrite (ltb_false (192 + c / 64) 128), (ltb_false (192 + c / 64) 194),
      (ltb_true (192 + c / 64) 224) by lia.
    rewrite is_continuation_true by lia. cbn [negb].
    f_equal. lia. }
  destruct (N.ltb_spec c 65536) as [H3|H3].
  { cbn [app utf8_decode_from length].
    rewrite (ltb_false (224 + c / 4096) 128), (ltb_false (224 + c / 4096) 194),
      (ltb_false (224 + c / 4096) 224), (ltb_true (224 + c / 4096) 240) by lia.
    rewrite !is_continuation_true by lia. cbn [negb orb].
    assert (E : (if (128 + (c / 64) mod 64 <? 160)%N
                 then (224 + c / 4096 =? 224)%N
                 else (224 + c / 4096 =? 237)%N) = false).
    { destruct (N.ltb_spec (128 + (c / 64) mod 64) 160); apply N.eqb_neq; lia. }
    rewrite E. f_equal. lia. }
  cbn [app utf8_decode_from length].
  rewrite (ltb_false (240 + c / 262144) 128), (ltb_false (240 + c / 262144) 194),
    (ltb_false (240 + c / 262144) 224), (ltb_false (240 + c / 262144) 240),
    (ltb_true (240 + c / 262144) 245) by lia.
  rewrite !is_continuation_true by lia. cbn [negb orb].
  assert (E : (if (128 + (c / 4096) mod 64 <? 144)%N
               then (240 + c / 262144 =? 240)%N
               else (240 + c / 262144 =? 244)%N) = false).
  { destruct (N.ltb_spec (128 + (c / 4096) mod 64) 144); apply N.eqb_neq; lia. }
  rewrite E. f_equal. lia.
Qed.

Lemma decoded_inl (c : pychar) (s : pystr) : decoded c (inl s) = inl (c :: s).
Proof. reflexivity. Qed.

Lemma utf8_decode_from_encode (object : pybytes) (s : pystr) (pos : nat) :
  Forall is_code_point s -> existsb is_surrogate s = false ->
  utf8_decode_from object (flat_map utf8_char s) pos = inl s.
Proof.
  intros H. revert pos. induction H as [|c s Hc Hs IH]; intros pos Hn; [reflexivity|].
  simpl in Hn. apply orb_false_elim in Hn. destruct Hn as [Hn1 Hn2].
  cbn [flat_map]. rewrite utf8_decode_from_char by assumption.
  rewrite IH by assumption. reflexivity.
Qed.

Lemma utf8_char_bytes (c : pychar) : is_code_point c -> Forall is_byte (utf8_char c).
Proof.
  unfold is_code_point, is_byte, utf8_char. intros H.
  destruct (N.ltb_spec c 128); [repeat constructor; lia|].
  destruct (N.ltb_spec c 2048); [repeat constructor; lia|].
  destruct (N.ltb_spec c 65536); repeat constructor; lia.
Qed.

Lemma utf8_bytes (s : pystr) :
  Forall is_code_point s -> Forall is_byte (flat_map utf8_char s).
Proof.
  induction 1 as [|c s Hc Hs IH]; [constructor|].
  cbn [flat_map]. apply Forall_app. split; [apply utf8_char_bytes; assumption | exact IH].
Qed.

(** ** Strings and dictionaries *)

Lemma pystr_eqb_refl (a : pystr) : pystr_eqb a a = true.
Proof.
  induction a as [|c a IH]; [reflexivity|].
  simpl. unfold pychar_eqb. rewrite N.eqb_refl. exact IH.
Qed.

Lemma pystr_eqb_eq (a b : pystr) : pystr_eqb a b = true <-> a = b.
Proof.
  split; [|intros ->; apply pystr_eqb_refl].
  revert b. induction a as [|x a IH]; intros [|y b]; simpl; try discriminate; auto.
  intros H. apply andb_prop in H. destruct H as [H1 H2].
  apply N.eqb_eq in H1. f_equal; auto.
Qed.

Lemma dropwhile_suffix (p : pychar -> bool) (s : pystr) :
  exists w, s = w ++ dropwhile p s /\ forallb p w = true.
Proof.
  induction s as [|c s (w & E & F)]; [exists []; auto|].
  simpl. destruct (p c) eqn:Hc.
  - exists (c :: w). simpl. rewrite Hc, F. split; [congruence | reflexivity].
  - exists []. auto.
Qed.

Lemma dropwhile_fixed (p : pychar -> bool) (s : pystr) :
  (forall c t, s = c :: t -> p c = false) -> dropwhile p s = s.
Proof.
  destruct s as [|c t]; [reflexivity|].
  intros H. simpl. rewrite (H c t eq_refl). reflexivity.
Qed.

Lemma dropwhile_idem (p : pychar -> bool) (s : pystr) :
  dropwhile p (dropwhile p s) = dropwhile p s.
Proof.
  apply dropwhile_fixed. intros c t E. apply dropwhile_head in E. exact E.
Qed.

(** [strip] leaves no whitespace at either end. *)
Lemma strip_trimmed (s : pystr) :
  dropwhile py_isspace (strip s) = strip s
  /\ dropwhile py_isspace (rev (strip s)) = rev (strip s).
Proof.
  unfold strip, rstrip, lstrip. set (t := dropwhile py_isspace s).
  split.
  - apply dropwhile_fixed. intros c u E.
    destruct (dropwhile_suffix py_isspace (rev t)) as (w & Ew & _).
    apply (f_equal (@rev pychar)) in Ew. rewrite rev_involutive, rev_app_distr in Ew.
    rewrite E in Ew. simpl in Ew.
    apply (dropwhile_head py_isspace s c (u ++ rev w)). exact Ew.
  - rewrite rev_involutive. apply dropwhile_idem.
Qed.

Lemma strip_idempotent (s : pystr) : strip (strip s) = strip s.
Proof.
  destruct (strip_trimmed s) as [H1 H2].
  unfold strip at 1. unfold rstrip, lstrip. rewrite H1, H2. apply rev_involutive.
Qed.

(** A stripped string that is not empty is not blank. *)
Lemma strip_truthy_not_blank (s : pystr) :
  str_truthy (strip s) = true -> is_blank (strip s) = false.
Proof.
  intros H. unfold is_blank. rewrite strip_idempotent, H. reflexivity.
Qed.

Lemma is_blank_strip (s : pystr) : is_blank (strip s) = negb (str_truthy (strip s)).
Proof.
  unfold is_blank. rewrite strip_idempotent. apply orb_diag.
Qed.

(** ** [encode_base64] *)

Lemma encode_base64_ok (data : pystr) :
  existsb is_surrogate data = false ->
  encode_base64 data = inl (b64encode (flat_map utf8_char data)).
Proof.
  intros H. unfold encode_base64, utf8_encode, utf8_decode.
  rewrite utf8_encode_from_ok by exact H.
  apply utf8_decode_from_ascii, b64encode_ascii.
Qed.

Lemma encode_base64_inv (data r : pystr) :
  encode_base64 data = inl r ->
  existsb is_surrogate data = false /\ r = b64encode (flat_map utf8_char data).
Proof.
  intros E. destruct (existsb is_surrogate data) eqn:H.
  - unfold encode_base64, utf8_encode in E.
    destruct (utf8_encode_from_error data data 0 H) as (k & Ek & _).
    rewrite Ek in E. discriminate E.
  - rewrite encode_base64_ok in E by exact H. split; congruence.
Qed.

Lemma utf8_char_ascii (c : pychar) : (c < 128)%N -> utf8_char c = [c].
Proof. intros H. unfold utf8_char. apply N.ltb_lt in H. rewrite H. reflexivity. Qed.

Lemma utf8_ascii (s : pystr) :
  Forall (fun c => (c < 128)%N) s -> flat_map utf8_char s = s.
Proof.
  induction 1 as [|c s Hc Hs IH]; [reflexivity|].
  cbn [flat_map]. rewrite utf8_char_ascii, IH by assumption. reflexivity.
Qed.

Lemma b64encode_alphabet (b : pybytes) :
  Forall is_byte b ->
  exists body pad,
    b64encode b = body ++ pad
    /\ Forall (fun c => In c b64_alphabet) body
    /\ (pad = [] /\ length b mod 3 = 0
        \/ pad = [b64_pad; b64_pad] /\ length b mod 3 = 1
        \/ pad = [b64_pad] /\ length b mod 3 = 2).
Proof.
  unfold is_byte.
  induction b as [|x|x y|x y z l IH] using list_ind3; intros H.
  - exists [], []. repeat split; auto.
  - inversion_clear H as [|? ? Hx _].
    exists [b64_char (x / 4); b64_char ((x mod 4) * 16)]%N, [b64_pad; b64_pad].
    split; [reflexivity|]. split; [|auto].
    repeat (apply Forall_cons; [apply b64_char_in_alphabet; lia|]); apply Forall_nil.
  - inversion_clear H as [|? ? Hx H']. inversion_clear H' as [|? ? Hy _].
    exists [b64_char (x / 4); b64_char ((x mod 4) * 16 + y / 16);
            b64_char ((y mod 16) * 4)]%N, [b64_pad].
    split; [reflexivity|]. split; [|auto].
    repeat (apply Forall_cons; [apply b64_char_in_alphabet; lia|]); apply Forall_nil.
  - inversion_clear H as [|? ? Hx H']. inversion_clear H' as [|? ? Hy H''].
    inversion_clear H'' as [|? ? Hz Hl].
    destruct (IH Hl) as (body & pad & E & Hb & Hp).
    exists ([b64_char (x / 4); b64_char ((x mod 4) * 16 + y / 16);
             b64_char ((y mod 16) * 4 + z / 64); b64_char (z mod 64)]%N ++ body), pad.
    split; [cbn [b64encode]; rewrite E, app_assoc; reflexivity|].
    split.
    + apply Forall_app. split; [|exact Hb].
      repeat (apply Forall_cons; [apply b64_char_in_alphabet; lia|]); apply Forall_nil.
    + cbn [length].
      replace (S (S (S (length l)))) with (length l + 1 * 3) by lia.
      rewrite Nat.Div0.mod_add. exact Hp.
Qed.

Lemma code_points_checked (s : pystr) :
  forallb (fun c => (c <=? 1114111)%N) s = true -> Forall is_code_point s.
Proof.
  intros H. apply Forall_forall. intros c Hc.
  rewrite forallb_forall in H. apply N.leb_le, H, Hc.
Qed.

(** X1. [encode_base64] returns a string exactly when its argument holds no
    surrogate code point (U+D800 to U+DFFF); otherwise [str.encode] raises
    and nothing is returned. *)
Theorem encode_base64_returns_iff (data : pystr) :
  (exists r, encode_base64 data = inl r) <-> existsb is_surrogate data = false.
Proof.
  split.
  - intros [r E]. apply encode_base64_inv in E. apply E.
  - intros H. rewrite encode_base64_ok by exact H. eauto.
Qed.

(** X2. On a string with a surrogate, [encode_base64] raises the
    [UnicodeEncodeError] of the first one: its [start] is the index of the
    first surrogate of the string, and its [end] closes the run of
    surrogates that begins there. *)
Theorem encode_base64_first_surrogate (data : pystr) :
  existsb is_surrogate data = true ->
  exists k,
    encode_base64 data
    = inr (UnicodeEncodeError data k (k + surrogate_run (skipn k data)))
    /\ k < length data
    /\ is_surrogate (nth k data 0%N) = true
    /\ existsb is_surrogate (firstn k data) = false.
Proof.
  intros H. destruct (utf8_encode_from_error data data 0 H) as (k & E & Hk).
  exists k. unfold encode_base64, utf8_encode. rewrite E. auto.
Qed.

(** X3. The text [encode_base64] returns has four characters for every
    three bytes of the UTF-8 form of its argument, the last group rounded
    up; for an ASCII argument that is four characters for every three
    characters. *)
Theorem encode_base64_length (data r : pystr) :
  encode_base64 data = inl r ->
  length r = 4 * ((length (flat_map utf8_char data) + 2) / 3)
  /\ (Forall (fun c => (c < 128)%N) data -> length r = 4 * ((length data + 2) / 3)).
Proof.
  intros E. apply encode_base64_inv in E. destruct E as [_ ->].
  split; [apply b64encode_length|].
  intros A. rewrite utf8_ascii by exact A. apply b64encode_length.
Qed.

(** X4. The text [encode_base64] returns is made of characters of the
    Base64 alphabet ([A-Z], [a-z], [0-9], [+], [/]) followed by no, one or
    two [=]. *)
Theorem encode_base64_alphabet (data r : pystr) :
  Forall is_code_point data ->
  encode_base64 data = inl r ->
  exists body pad,
    r = body ++ pad
    /\ Forall (fun c => In c b64_alphabet) body
    /\ (pad = [] \/ pad = [b64_pad] \/ pad = [b64_pad; b64_pad]).
Proof.
  intros V E. apply encode_base64_inv in E. destruct E as [_ ->].
  destruct (b64encode_alphabet _ (utf8_bytes data V)) as (body & pad & E & Hb & Hp).
  exists body, pad. split; [exact E|]. split; [exact Hb|].
  destruct Hp as [[-> _]|[[-> _]|[-> _]]]; auto.
Qed.

(** X5. [encode_base64] loses nothing: two strings with the same encoding
    are the same string. *)
Theorem encode_base64_injective (s1 s2 r : pystr) :
  Forall is_code_point s1 -> Forall is_code_point s2 ->
  encode_base64 s1 = inl r -> encode_base64 s2 = inl r ->
  s1 = s2.
Proof.
  intros V1 V2 E1 E2.
  apply encode_base64_inv in E1. destruct E1 as [N1 E1].
  apply encode_base64_inv in E2. destruct E2 as [N2 E2].
  assert (B : flat_map utf8_char s1 = flat_map utf8_char s2).
  { rewrite <- (b64decode_encode (flat_map utf8_char s1)) by (apply utf8_bytes; exact V1).
    rewrite <- (b64decode_encode (flat_map utf8_char s2)) by (apply utf8_bytes; exact V2).
    congruence. }
  pose proof (utf8_decode_from_encode [] s1 0 V1 N1) as D1.
  pose proof (utf8_decode_from_encode [] s2 0 V2 N2) as D2.
  rewrite B in D1. congruence.
Qed.

(** X6. The two codec calls of [encode_base64] are inverse to each other:
    a string without surrogates is encoded by [str.encode('utf-8')] to bytes
    that [bytes.decode('utf-8')] decodes to the same string. *)
Theorem utf8_round_trip (s : pystr) :
  Forall is_code_point s -> existsb is_surrogate s = false ->
  exists b, utf8_encode s = inl b /\ Forall is_byte b /\ utf8_decode b = inl s.
Proof.
  intros V H. exists (flat_map utf8_char s).
  split; [apply utf8_encode_from_ok; exact H|].
  split; [apply utf8_bytes; exact V|].
  apply utf8_decode_from_encode; assumption.
Qed.

(** X7. [encode_base64] of a concatenation is the concatenation of the
    encodings when the UTF-8 form of the first string is a whole number of
    three-byte groups. *)
Theorem encode_base64_app (a b ra rb : pystr) :
  encode_base64 a = inl ra -> encode_base64 b = inl rb ->
  length (flat_map utf8_char a) mod 3 = 0 ->
  encode_base64 (a ++ b) = inl (ra ++ rb).
Proof.
  intros Ea Eb L.
  apply encode_base64_inv in Ea. destruct Ea as [Na ->].
  apply encode_base64_inv in Eb. destruct Eb as [Nb ->].
  rewrite encode_base64_ok by (rewrite existsb_app, Na, Nb; reflexivity).
  rewrite flat_map_app, b64encode_app by exact L. reflexivity.
Qed.

Lemma encode_base64_first_surrogate_witness :
  existsb is_surrogate [104; 55357; 56832; 105]%N = true
  /\ exists k,
       encode_base64 [104; 55357; 56832; 105]%N
       = inr (UnicodeEncodeError [104; 55357; 56832; 105]%N k
                (k + surrogate_run (skipn k [104; 55357; 56832; 105]%N)))
       /\ k < length [104; 55357; 56832; 105]%N
       /\ is_surrogate (nth k [104; 55357; 56832; 105]%N 0%N) = true
       /\ existsb is_surrogate (firstn k [104; 55357; 56832; 105]%N) = false.
Proof.
  split; [reflexivity|].
  apply (encode_base64_first_surrogate [104; 55357; 56832; 105]%N). reflexivity.
Defined.

Lemma encode_base64_length_witness :
  encode_base64 (py "hi") = inl (py "aGk=")
  /\ length (py "aGk=") = 4 * ((length (flat_map utf8_char (py "hi")) + 2) / 3)
  /\ (Forall (fun c => (c < 128)%N) (py "hi")
      -> length (py "aGk=") = 4 * ((length (py "hi") + 2) / 3)).
Proof.
  split; [reflexivity|].
  apply (encode_base64_length (py "hi") (py "aGk=")). reflexivity.
Defined.

Lemma encode_base64_alphabet_witness :
  Forall is_code_point (py "hi")
  /\ encode_base64 (py "hi") = inl (py "aGk=")
  /\ exists body pad,
       py "aGk=" = body ++ pad
       /\ Forall (fun c => In c b64_alphabet) body
       /\ (pad = [] \/ pad = [b64_pad] \/ pad = [b64_pad; b64_pad]).
Proof.
  assert (V : Forall is_code_point (py "hi")).
  { apply code_points_checked. reflexivity. }
  split; [exact V|]. split; [reflexivity|].
  apply (encode_base64_alphabet (py "hi") (py "aGk=") V). reflexivity.
Defined.

Lemma encode_base64_injective_witness :
  Forall is_code_point (py "hi")
  /\ Forall is_code_point ([104] ++ [105])%N
  /\ encode_base64 (py "hi") = inl (py "aGk=")
  /\ encode_base64 ([104] ++ [105])%N = inl (py "aGk=")
  /\ py "hi" = ([104] ++ [105])%N.
Proof.
  assert (V : Forall is_code_point (py "hi")).
  { apply code_points_checked. reflexivity. }
  assert (V' : Forall is_code_point ([104] ++ [105])%N).
  { apply code_points_checked. reflexivity. }
  split; [exact V|]. split; [exact V'|]. split; [reflexivity|]. split; [reflexivity|].
  apply (encode_base64_injective (py "hi") ([104] ++ [105])%N (py "aGk=") V V');
    reflexivity.
Defined.

Lemma utf8_round_trip_witness :
  Forall is_code_point [104; 233; 8364; 128512]%N
  /\ existsb is_surrogate [104; 233; 8364; 128512]%N = false
  /\ exists b, utf8_encode [104; 233; 8364; 128512]%N = inl b
               /\ Forall is_byte b
               /\ utf8_decode b = inl [104; 233; 8364; 128512]%N.
Proof.
  assert (V : Forall is_code_point [104; 233; 8364; 128512]%N).
  { apply code_points_checked. reflexivity. }
  split; [exact V|]. split; [reflexivity|].
  apply (utf8_round_trip [104; 233; 8364; 128512]%N V). reflexivity.
Defined.

Lemma encode_base64_app_witness :
  encode_base64 (py "abc") = inl (py "YWJj")
  /\ encode_base64 (py "d") = inl (py "ZA==")
  /\ length (flat_map utf8_char (py "abc")) mod 3 = 0
  /\ encode_base64 (py "abc" ++ py "d") = inl (py "YWJj" ++ py "ZA==").
Proof.
  split; [reflexivity|]. split; [reflexivity|]. split; [reflexivity|].
  apply (encode_base64_app (py "abc") (py "d") (py "YWJj") (py "ZA==")); reflexivity.
Defined.

(** ** [to_dict] and the fields of a request *)

Lemma is_blank_alt (s : pystr) : is_blank s = negb (str_truthy (strip s)).
Proof.
  unfold is_blank. destruct s as [|c s]; [reflexivity|]. reflexivity.
Qed.

Lemma is_blank_strip_eq (s : pystr) : is_blank (strip s) = is_blank s.
Proof. rewrite !is_blank_alt, strip_idempotent. reflexivity. Qed.

Lemma str_truthy_false (w : pystr) : str_truthy w = false -> w = [].
Proof. destruct w; [reflexivity | discriminate]. Qed.

Lemma dict_getitem_setitem_same d k v :
  dict_getitem (dict_setitem d k v) k = Some v.
Proof.
  induction d as [|[k' v'] d IH]; simpl.
  - rewrite pystr_eqb_refl. reflexivity.
  - destruct (pystr_eqb k' k) eqn:E; simpl; rewrite E; auto.
Qed.

Lemma dict_getitem_setitem_other d k k' v :
  pystr_eqb k k' = false ->
  dict_getitem (dict_setitem d k v) k' = dict_getitem d k'.
Proof.
  intros N. induction d as [|[k0 v0] d IH]; simpl.
  - rewrite N. reflexivity.
  - destruct (pystr_eqb k0 k) eqn:E; simpl.
    + apply pystr_eqb_eq in E. subst k0. rewrite N. reflexivity.
    + destruct (pystr_eqb k0 k'); auto.
Qed.

Lemma dict_setitem_not_nil d k v : dict_setitem d k v <> [].
Proof.
  destruct d as [|[k' v'] d]; simpl; [discriminate|].
  destruct (pystr_eqb k' k); discriminate.
Qed.

Lemma dict_getitem_not_nil d k v : dict_getitem d k = Some v -> d <> [].
Proof. intros H ->. discriminate H. Qed.

Lemma to_dict_error (msg : pystr) :
  to_dict (CompileResult_error msg) = [(py "cmr", PyNone); (py "error", PyStr msg)].
Proof. reflexivity. Qed.

Lemma to_dict_cmr (c : pystr) (v : pyobj) :
  to_dict (CompileResult_cmr c v)
  = [(py "cmr", PyStr c); (py "error", PyNone)]
      ++ (if py_truthy v then [(py "witness_data", v)] else []).
Proof.
  unfold to_dict. cbn [witness_data cmr error CompileResult_cmr pyobj_of_optstr].
  destruct (py_truthy v); reflexivity.
Qed.

(** ** [api_compile] *)

Section ApiCompile.

Variable json_loads : pystr -> pyobj + py_exception.

(** What [api_compile] does once the fields are read. *)
Lemma api_compile_run_spec (code : pystr) (wd : option pystr) (l : log) :
  try_except (api_compile_run json_loads code wd) compile_failed l =
  let l1 := snd (logger_info (py "API /compile: code_length=" ++ str_of_nat (length code)
                                 ++ py ", with_witness="
                                 ++ str_of_bool (optstr_truthy wd)) l) in
  match (match wd with
         | Some w => if str_truthy w then compile_with_witness json_loads code w
                     else compile_simplicity code
         | None => compile_simplicity code
         end) l1 with
  | (inl r, l2) =>
      ((to_dict r, 200),
       snd (logger_info (py "Compilation result: cmr=" ++ str_of_bool (is_some (cmr r))
                            ++ py ", error=" ++ str_of_optstr (error r)) l2))
  | (inr e, l2) => compile_failed (Builtin e) l2
  end.
Proof.
  unfold try_except, api_compile_run, hbind, of_M, hret. cbv zeta.
  destruct (logger_info
              (py "API /compile: code_length=" ++ str_of_nat (length code)
                  ++ py ", with_witness=" ++ str_of_bool (optstr_truthy wd)) l)
    as [[[]|e] l1] eqn:E1; [|discriminate E1].
  cbn [snd].
  destruct wd as [w|]; [destruct (str_truthy w)|].
  - destruct (compile_with_witness json_loads code w l1) as [[r|e] l2]; reflexivity.
  - destruct (compile_simplicity code l1) as [[r|e] l2]; reflexivity.
  - destruct (compile_simplicity code l1) as [[r|e] l2]; reflexivity.
Qed.

Lemma api_compile_run_none (code : pystr) (l : log) :
  try_except (api_compile_run json_loads code (Some [])) compile_failed l
  = try_except (api_compile_run json_loads code None) compile_failed l.
Proof. rewrite !api_compile_run_spec. reflexivity. Qed.

Lemma api_compile_falsy (data : pyobj) (l : log) :
  py_truthy data = false ->
  api_compile json_loads data l =
  (([(py "cmr", PyNone); (py "error", PyStr (py "No JSON data provided"))], 400), l).
Proof.
  intros H. unfold api_compile, try_except, api_compile_body. rewrite H. reflexivity.
Qed.

Lemma api_compile_not_dict (data : pyobj) (l : log) :
  py_truthy data = true -> (forall d, data <> PyDict d) ->
  api_compile json_loads data l = compile_failed (no_attribute data "get") l.
Proof.
  intros H N. unfold api_compile, try_except, api_compile_body. rewrite H. cbn [negb].
  destruct data; try reflexivity. destruct (N d eq_refl).
Qed.

(** [api_compile] on a [dict] that is not empty, by the two fields it reads. *)
Lemma api_compile_dict (d : list (pystr * pyobj)) (l : log) :
  d <> [] ->
  api_compile json_loads (PyDict d) l =
  match (match dict_getitem d (py "code") with Some v => v | None => PyStr [] end) with
  | PyStr c =>
      match (match dict_getitem d (py "witness_data") with Some v => v | None => PyNone end) with
      | PyStr w =>
          try_except (api_compile_run json_loads (strip c)
                        (if str_truthy w then Some (strip w) else None))
                     compile_failed l
      | w0 =>
          if py_truthy w0 then compile_failed (no_attribute w0 "strip") l
          else try_except (api_compile_run json_loads (strip c) None) compile_failed l
      end
  | c0 => compile_failed (no_attribute c0 "strip") l
  end.
Proof.
  intros N. unfold api_compile, api_compile_body.
  assert (T : py_truthy (PyDict d) = true) by (destruct d; [contradiction | reflexivity]).
  rewrite T. cbn [negb py_get].
  unfold try_except at 1. unfold hbind at 1. unfold hlift at 1.
  destruct (dict_getitem d (py "code")) as [c0|];
    [destruct c0; try reflexivity|];
    (unfold hbind at 1; unfold hlift at 1; cbn [py_strip];
     unfold hbind at 1; unfold hlift at 1;
     destruct (dict_getitem d (py "witness_data")) as [w0|];
     [destruct w0 as [|b|z|f|w|wl|wd]|]; cbn [py_truthy];
     try reflexivity).
  all: try (destruct b; reflexivity).
  all: try (destruct (negb (z =? 0)%Z); reflexivity).
  all: try (destruct (float_truthy f); reflexivity).
  all: try (destruct (str_truthy w); reflexivity).
  all: try (destruct wl; reflexivity).
  all: try (destruct wd; reflexivity).
Qed.

Lemma api_compile_run_cases (code : pystr) (wd : option pystr) (l : log) :
  (forall w, wd = Some w -> str_truthy w = true -> is_blank w = false) ->
  (exists e l', try_except (api_compile_run json_loads code wd) compile_failed l
                = compile_failed e l')
  \/ (exists r l1 l2,
        fst (try_except (api_compile_run json_loads code wd) compile_failed l)
        = (to_dict r, 200)
        /\ (compile_simplicity code l1 = (inl r, l2)
            \/ exists w, is_blank w = false
                         /\ compile_with_witness json_loads code w l1 = (inl r, l2))).
Proof.
  intros Hw. rewrite api_compile_run_spec. cbv zeta.
  set (l1 := snd (logger_info _ l)).
  destruct wd as [w|]; [destruct (str_truthy w) eqn:Tw|].
  - destruct (compile_with_witness json_loads code w l1) as [[r|e] l2] eqn:E.
    + right. exists r, l1, l2. split; [reflexivity|]. right. exists w. auto.
    + left. eauto.
  - destruct (compile_simplicity code l1) as [[r|e] l2] eqn:E.
    + right. exists r, l1, l2. split; [reflexivity|]. left. exact E.
    + left. eauto.
  - destruct (compile_simplicity code l1) as [[r|e] l2] eqn:E.
    + right. exists r, l1, l2. split; [reflexivity|]. left. exact E.
    + left. eauto.
Qed.

(** In every case [api_compile] answers in one of three ways: the 400 of a
    request without data, the 500 of its handler, or the 200 that carries
    the result of one of the two compile functions. *)
Lemma api_compile_cases (data : pyobj) (l : log) :
  (py_truthy data = false
   /\ api_compile json_loads data l =
      (([(py "cmr", PyNone); (py "error", PyStr (py "No JSON data provided"))], 400), l))
  \/ (py_truthy data = true
      /\ exists e l', api_compile json_loads data l = compile_failed e l')
  \/ (py_truthy data = true
      /\ exists code r l1 l2,
        fst (api_compile json_loads data l) = (to_dict r, 200)
        /\ (compile_simplicity code l1 = (inl r, l2)
            \/ exists w, is_blank w = false
                         /\ compile_with_witness json_loads code w l1 = (inl r, l2))).
Proof.
  destruct (py_truthy data) eqn:T.
  2:{ left. split; [reflexivity|]. apply api_compile_falsy. exact T. }
  right.
  assert (D : (exists d, data = PyDict d /\ d <> []) \/ (forall d, data <> PyDict d)).
  { destruct data; try (right; discriminate).
    left. exists d. split; [reflexivity|]. destruct d; [discriminate T | discriminate]. }
  destruct D as [(d & -> & Nd)|Nd].
  2:{ left. split; [reflexivity|]. rewrite api_compile_not_dict by assumption. eauto. }
  rewrite api_compile_dict by exact Nd.
  pose (P := fun x : response * log =>
               (true = true /\ exists e l', x = compile_failed e l')
               \/ (true = true
                   /\ exists code r l1 l2,
                     fst x = (to_dict r, 200)
                     /\ (compile_simplicity code l1 = (inl r, l2)
                         \/ exists w, is_blank w = false
                                      /\ compile_with_witness json_loads code w l1
                                         = (inl r, l2)))).
  match goal with |- _ \/ (_ /\ exists code r l1 l2, fst ?x = _ /\ _) => change (P x) end.
  assert (R : forall code wd,
             (forall w, wd = Some w -> str_truthy w = true -> is_blank w = false) ->
             P (try_except (api_compile_run json_loads code wd) compile_failed l)).
  { intros code wd Hw. unfold P.
    destruct (api_compile_run_cases code wd l Hw) as [H|(r & l1 & l2 & H)].
    - left. auto.
    - right. split; [reflexivity|]. exists code, r, l1, l2. exact H. }
  assert (F : forall e, P (compile_failed e l)) by (intros e; left; eauto).
  assert (Hnone : forall w : pystr,
             @None pystr = Some w -> str_truthy w = true -> is_blank w = false)
    by discriminate.
  destruct (match dict_getitem d (py "code") with Some v => v | None => PyStr [] end)
    as [|b|z|f|c|cl|cd]; try apply F.
  destruct (match dict_getitem d (py "witness_data") with Some v => v | None => PyNone end)
    as [|b|z|f|w|wl|wd]; cbn [py_truthy].
  - apply R, Hnone.
  - destruct b; [apply F | apply R, Hnone].
  - destruct (negb (z =? 0)%Z); [apply F | apply R, Hnone].
  - destruct (float_truthy f); [apply F | apply R, Hnone].
  - apply R. destruct (str_truthy w); [|exact Hnone].
    intros w' [= <-] Tw. apply strip_truthy_not_blank. exact Tw.
  - destruct wl; [apply R, Hnone | apply F].
  - destruct wd; [apply R, Hnone | apply F].
Qed.

(** The results the compile functions hand to [api_compile]. *)
Lemma compiled_result (code : pystr) (r : CompileResult) (l1 l2 : log) :
  (compile_simplicity code l1 = (inl r, l2)
   \/ exists w, is_blank w = false
                /\ compile_with_witness json_loads code w l1 = (inl r, l2)) ->
  (exists msg, r = CompileResult_error msg /\ msg <> py "Witness data is empty")
  \/ (exists v, r = CompileResult_cmr placeholder_cmr v).
Proof.
  intros [Hr|(w & Bw & Hr)].
  - assert (Hr' : returns (compile_simplicity code) l1 r)
      by (unfold returns; rewrite Hr; reflexivity).
    apply compile_simplicity_returns in Hr'.
    destruct Hr' as [[-> _]|[-> _]]; [left | right; eauto].
    eexists. split; [reflexivity | discriminate].
  - assert (Hr' : returns (compile_with_witness json_loads code w) l1 r)
      by (unfold returns; rewrite Hr; reflexivity).
    apply compile_with_witness_returns in Hr'.
    destruct Hr' as [[-> _]|[[-> (_ & B)]|[[(m & d & p & _ & ->) _]|[(v & n & _ & _ & ->) _]]]].
    + left. eexists. split; [reflexivity | discriminate].
    + congruence.
    + left. eexists. split; [reflexivity | discriminate].
    + right. eauto.
Qed.

(** X8. The status of the answer of [api_compile] is 200, 400 or 500, and it
    is 400 exactly when the body of the request is missing or falsy
    ([None], [{}], [[]], [0], [""], [false]). *)
Theorem api_compile_status (data : pyobj) (l : log) :
  let status := snd (fst (api_compile json_loads data l)) in
  (status = 400 <-> py_truthy data = false)
  /\ (status = 200 \/ status = 400 \/ status = 500).
Proof.
  cbv zeta.
  destruct (api_compile_cases data l)
    as [[T E]|[[T (e & l' & E)]|[T (code & r & l1 & l2 & E & _)]]].
  - rewrite E. cbn. split; [tauto | auto].
  - rewrite E, T. cbn. split; [split; discriminate | auto].
  - replace (snd (fst (api_compile json_loads data l))) with 200
      by (rewrite E; reflexivity).
    rewrite T. split; [split; discriminate | auto].
Qed.

(** X9. Every answer of [api_compile] begins with the keys [cmr] and
    [error], of which exactly one is [null]; a third key can only be
    [witness_data], with a truthy value, in an answer with a CMR and the
    status 200. *)
Theorem api_compile_no_partial_success (data : pyobj) (l : log) :
  exists c e rest,
    fst (fst (api_compile json_loads data l)) = (py "cmr", c) :: (py "error", e) :: rest
    /\ (c = PyNone <-> e <> PyNone)
    /\ (rest = []
        \/ exists w, rest = [(py "witness_data", w)] /\ py_truthy w = true
                     /\ c <> PyNone
                     /\ snd (fst (api_compile json_loads data l)) = 200).
Proof.
  destruct (api_compile_cases data l)
    as [[T E]|[[T (e & l' & E)]|[T (code & r & l1 & l2 & E & Hr)]]].
  - rewrite E. do 3 eexists. split; [reflexivity|].
    split; [split; [discriminate | reflexivity] | left; reflexivity].
  - rewrite E. do 3 eexists. split; [reflexivity|].
    split; [split; [discriminate | reflexivity] | left; reflexivity].
  - rewrite E. cbn [fst snd].
    destruct (compiled_result code r l1 l2 Hr) as [(msg & -> & _)|[v ->]].
    + rewrite to_dict_error. do 3 eexists. split; [reflexivity|].
      split; [split; [discriminate | reflexivity] | left; reflexivity].
    + rewrite to_dict_cmr. do 3 eexists. split; [reflexivity|].
      split; [split; [discriminate | intros H; contradiction H; reflexivity]|].
      destruct (py_truthy v) eqn:Tv; [right | left; reflexivity].
      exists v. repeat split; auto. discriminate.
Qed.

(** X10. [api_compile] never answers ["Witness data is empty"]: the route
    strips the witness and calls [compile_with_witness] only with what is
    left when that is not empty, so the guard of that function is never
    the one that answers. *)
Theorem api_compile_never_witness_empty (data : pyobj) (l : log) :
  dict_getitem (fst (fst (api_compile json_loads data l))) (py "error")
  <> Some (PyStr (py "Witness data is empty")).
Proof.
  destruct (api_compile_cases data l)
    as [[T E]|[[T (e & l' & E)]|[T (code & r & l1 & l2 & E & Hr)]]].
  - rewrite E. cbn. discriminate.
  - rewrite E. cbn. discriminate.
  - rewrite E. cbn [fst].
    destruct (compiled_result code r l1 l2 Hr) as [(msg & -> & Hm)|[v ->]].
    + rewrite to_dict_error.
      change (Some (PyStr msg) <> Some (PyStr (py "Witness data is empty"))).
      intros H. apply Hm. congruence.
    + rewrite to_dict_cmr. cbn. discriminate.
Qed.

(** X11. White space around the two fields is not seen by [api_compile]:
    the answer and the log are the same for [code] and [witness_data] as
    for their stripped forms. *)
Theorem api_compile_strips_fields (d : list (pystr * pyobj)) (c w : pystr) (l : log) :
  api_compile json_loads
    (PyDict (dict_setitem (dict_setitem d (py "code") (PyStr c))
                          (py "witness_data") (PyStr w))) l
  = api_compile json_loads
      (PyDict (dict_setitem (dict_setitem d (py "code") (PyStr (strip c)))
                            (py "witness_data") (PyStr (strip w)))) l.
Proof.
  rewrite !api_compile_dict by apply dict_setitem_not_nil.
  rewrite !dict_getitem_setitem_same.
  rewrite !(dict_getitem_setitem_other _ (py "witness_data") (py "code"))
    by reflexivity.
  rewrite !dict_getitem_setitem_same. rewrite !strip_idempotent.
  destruct (str_truthy w) eqn:Tw.
  - destruct (str_truthy (strip w)) eqn:Ts; [reflexivity|].
    apply str_truthy_false in Ts. rewrite Ts. apply api_compile_run_none.
  - apply str_truthy_false in Tw. subst w. reflexivity.
Qed.

(** X12. A witness that is valid JSON but has no length (a number, [true],
    [false], [null]) is not answered with a compile error: the [TypeError]
    of [len] leaves [compile_with_witness], and [api_compile] answers 500
    with ["Server error: "] and the text of that exception. *)
Theorem api_compile_unsized_witness (d : list (pystr * pyobj)) (c w : pystr)
  (v : pyobj) (e : py_exception) (l : log) :
  dict_getitem d (py "code") = Some (PyStr c) ->
  dict_getitem d (py "witness_data") = Some (PyStr w) ->
  is_blank c = false -> is_blank w = false ->
  json_loads (strip w) = inl v -> py_len v = inr e ->
  fst (api_compile json_loads (PyDict d) l)
  = ([(py "cmr", PyNone);
      (py "error", PyStr (py "Server error: " ++ exception_str e))], 500).
Proof.
  intros Dc Dw Bc Bw E L.
  rewrite api_compile_dict by exact (dict_getitem_not_nil _ _ _ Dc). rewrite Dc, Dw.
  assert (Tw : str_truthy w = true).
  { destruct w; [discriminate Bw | reflexivity]. }
  assert (Ts : str_truthy (strip w) = true).
  { rewrite is_blank_alt in Bw. apply negb_false_iff in Bw. exact Bw. }
  rewrite Tw, api_compile_run_spec. cbv zeta. rewrite Ts.
  rewrite compile_with_witness_run, !is_blank_strip_eq, Bc, Bw, E. cbv zeta.
  rewrite L. reflexivity.
Qed.

(** X13. A field that is not a string is answered with 500: a [code] of
    another type, or a truthy [witness_data] of another type, has no
    [strip], and the answer carries the text of the [AttributeError]. *)
Theorem api_compile_field_not_string (d : list (pystr * pyobj)) (v : pyobj) (l : log) :
  (dict_getitem d (py "code") = Some v
   \/ ((dict_getitem d (py "code") = None
        \/ exists c, dict_getitem d (py "code") = Some (PyStr c))
       /\ dict_getitem d (py "witness_data") = Some v /\ py_truthy v = true)) ->
  (forall s, v <> PyStr s) ->
  fst (api_compile json_loads (PyDict d) l)
  = ([(py "cmr", PyNone);
      (py "error", PyStr (py "Server error: '" ++ type_name v
                             ++ py "' object has no attribute 'strip'"))], 500).
Proof.
  intros [Dc|(Dc & Dw & Tv)] Nv.
  - rewrite api_compile_dict by exact (dict_getitem_not_nil _ _ _ Dc). rewrite Dc.
    destruct v as [|b|z|f|s|cl|cd]; try reflexivity. destruct (Nv s eq_refl).
  - rewrite api_compile_dict by exact (dict_getitem_not_nil _ _ _ Dw). rewrite Dw.
    assert (Hc : exists c, match dict_getitem d (py "code") with
                           | Some v0 => v0 | None => PyStr [] end = PyStr c).
    { destruct Dc as [->|(c & ->)]; eauto. }
    destruct Hc as [c ->].
    destruct v as [|b|z|f|s|wl|wd]; try discriminate Tv;
      try (cbv zeta; rewrite Tv; reflexivity).
    destruct (Nv s eq_refl).
Qed.

(** X14. A request without code, or with a blank one, is answered with the
    status 200 and the error ["Code is empty"], whatever string the witness
    is. *)
Theorem api_compile_blank_code (d : list (pystr * pyobj)) (l : log) :
  d <> [] ->
  (dict_getitem d (py "code") = None
   \/ exists c, dict_getitem d (py "code") = Some (PyStr c) /\ is_blank c = true) ->
  (dict_getitem d (py "witness_data") = None
   \/ exists w, dict_getitem d (py "witness_data") = Some (PyStr w)) ->
  fst (api_compile json_loads (PyDict d) l)
  = ([(py "cmr", PyNone); (py "error", PyStr (py "Code is empty"))], 200).
Proof.
  intros Nd Hc Hw. rewrite api_compile_dict by exact Nd.
  assert (Hcode : exists c, match dict_getitem d (py "code") with
                            | Some v => v | None => PyStr [] end = PyStr c
                            /\ is_blank (strip c) = true).
  { destruct Hc as [->|(c & -> & B)].
    - exists []. auto.
    - exists c. rewrite is_blank_strip_eq. auto. }
  destruct Hcode as (c & -> & B).
  assert (Hrun : forall wd,
             fst (try_except (api_compile_run json_loads (strip c) wd) compile_failed l)
             = ([(py "cmr", PyNone); (py "error", PyStr (py "Code is empty"))], 200)).
  { intros wd. rewrite api_compile_run_spec. cbv zeta.
    destruct wd as [w|]; [destruct (str_truthy w)|];
      rewrite ?compile_with_witness_run, ?compile_simplicity_run, B; reflexivity. }
  destruct Hw as [->|(w & ->)]; apply Hrun.
Qed.

(** X15. Code without a witness: when the witness is absent, falsy or a
    blank string, a request with code that is not blank is answered with the
    status 200, the placeholder CMR, no error and no [witness_data] key. *)
Theorem api_compile_without_witness (d : list (pystr * pyobj)) (c : pystr) (l : log) :
  dict_getitem d (py "code") = Some (PyStr c) -> is_blank c = false ->
  (dict_getitem d (py "witness_data") = None
   \/ (exists w0, dict_getitem d (py "witness_data") = Some w0 /\ py_truthy w0 = false)
   \/ (exists w, dict_getitem d (py "witness_data") = Some (PyStr w)
                 /\ is_blank w = true)) ->
  fst (api_compile json_loads (PyDict d) l)
  = ([(py "cmr", PyStr placeholder_cmr); (py "error", PyNone)], 200).
Proof.
  intros Dc Bc Hw.
  rewrite api_compile_dict by exact (dict_getitem_not_nil _ _ _ Dc). rewrite Dc.
  assert (Hrun : forall wd, optstr_truthy wd = false ->
             fst (try_except (api_compile_run json_loads (strip c) wd) compile_failed l)
             = ([(py "cmr", PyStr placeholder_cmr); (py "error", PyNone)], 200)).
  { intros wd Hwd. rewrite api_compile_run_spec. cbv zeta.
    destruct wd as [w|]; [cbn in Hwd; rewrite Hwd|];
      rewrite compile_simplicity_run, is_blank_strip_eq, Bc; reflexivity. }
  destruct Hw as [->|[(w0 & -> & Tw)|(w & -> & Bw)]].
  - apply Hrun. reflexivity.
  - destruct w0 as [|b|z|f|s|wl|wd]; cbv zeta; rewrite ?Tw;
      try (apply Hrun; reflexivity).
    cbn [py_truthy] in Tw. rewrite Tw. apply Hrun. reflexivity.
  - destruct (str_truthy w); [|apply Hrun; reflexivity].
    apply Hrun. cbn. rewrite is_blank_alt in Bw. apply negb_true_iff in Bw. exact Bw.
Qed.

(** X16. Code with a witness: when the stripped witness decodes to a value
    with a length, the answer has the status 200, the placeholder CMR, no
    error, and the decoded value under [witness_data], unless that value is
    empty ([{}], [[]], [""]), in which case the key is left out. *)
Theorem api_compile_with_witness (d : list (pystr * pyobj)) (c w : pystr)
  (v : pyobj) (n : nat) (l : log) :
  dict_getitem d (py "code") = Some (PyStr c) ->
  dict_getitem d (py "witness_data") = Some (PyStr w) ->
  is_blank c = false -> is_blank w = false ->
  json_loads (strip w) = inl v -> py_len v = inl n ->
  fst (api_compile json_loads (PyDict d) l)
  = ([(py "cmr", PyStr placeholder_cmr); (py "error", PyNone)]
       ++ (if py_truthy v then [(py "witness_data", v)] else []), 200).
Proof.
  intros Dc Dw Bc Bw E L.
  rewrite api_compile_dict by exact (dict_getitem_not_nil _ _ _ Dc). rewrite Dc, Dw.
  assert (Tw : str_truthy w = true).
  { destruct w; [discriminate Bw | reflexivity]. }
  assert (Ts : str_truthy (strip w) = true).
  { rewrite is_blank_alt in Bw. apply negb_false_iff in Bw. exact Bw. }
  rewrite Tw, api_compile_run_spec. cbv zeta. rewrite Ts.
  rewrite compile_with_witness_run, !is_blank_strip_eq, Bc, Bw, E. cbv zeta.
  rewrite L. cbn [fst]. rewrite to_dict_cmr. reflexivity.
Qed.

(** X17. A witness that is not JSON is a compile error, not a failure of
    the request: the status is 200, the CMR is [null], and the error is
    ["Invalid JSON: "] with the text of the [JSONDecodeError] of the
    stripped witness. *)
Theorem api_compile_invalid_json (d : list (pystr * pyobj)) (c w : pystr)
  (msg doc : pystr) (pos : nat) (l : log) :
  dict_getitem d (py "code") = Some (PyStr c) ->
  dict_getitem d (py "witness_data") = Some (PyStr w) ->
  is_blank c = false -> is_blank w = false ->
  json_loads (strip w) = inr (JSONDecodeError msg doc pos) ->
  fst (api_compile json_loads (PyDict d) l)
  = ([(py "cmr", PyNone);
      (py "error", PyStr (py "Invalid JSON: "
                             ++ exception_str (JSONDecodeError msg doc pos)))], 200).
Proof.
  intros Dc Dw Bc Bw E.
  rewrite api_compile_dict by exact (dict_getitem_not_nil _ _ _ Dc). rewrite Dc, Dw.
  assert (Tw : str_truthy w = true).
  { destruct w; [discriminate Bw | reflexivity]. }
  assert (Ts : str_truthy (strip w) = true).
  { rewrite is_blank_alt in Bw. apply negb_false_iff in Bw. exact Bw. }
  rewrite Tw, api_compile_run_spec. cbv zeta. rewrite Ts.
  rewrite compile_with_witness_run, !is_blank_strip_eq, Bc, Bw, E. reflexivity.
Qed.

End ApiCompile.

(** *** [api_compile] on concrete requests, with [json.loads] as the decoder *)

Lemma api_compile_unsized_witness_witness :
  dict_getitem [(py "code", PyStr src_unit); (py "witness_data", PyStr (py " 42 "))]
               (py "code") = Some (PyStr src_unit)
  /\ dict_getitem [(py "code", PyStr src_unit); (py "witness_data", PyStr (py " 42 "))]
                  (py "witness_data") = Some (PyStr (py " 42 "))
  /\ is_blank src_unit = false /\ is_blank (py " 42 ") = false
  /\ json.loads (strip (py " 42 ")) = inl (PyInt 42)
  /\ py_len (PyInt 42) = inr (TypeError (py "object of type 'int' has no len()"))
  /\ fst (api_compile json.loads
            (PyDict [(py "code", PyStr src_unit);
                     (py "witness_data", PyStr (py " 42 "))]) [])
     = ([(py "cmr", PyNone);
         (py "error",
          PyStr (py "Server error: "
                    ++ exception_str
                         (TypeError (py "object of type 'int' has no len()"))))], 500).
Proof.
  repeat (split; [vm_compute; reflexivity|]).
  apply (api_compile_unsized_witness json.loads
           [(py "code", PyStr src_unit); (py "witness_data", PyStr (py " 42 "))]
           src_unit (py " 42 ") (PyInt 42)
           (TypeError (py "object of type 'int' has no len()")) []);
    vm_compute; reflexivity.
Defined.

Lemma api_compile_field_not_string_witness :
  (dict_getitem [(py "code", PyInt 7)] (py "code") = Some (PyInt 7)
   \/ ((dict_getitem [(py "code", PyInt 7)] (py "code") = None
        \/ exists c, dict_getitem [(py "code", PyInt 7)] (py "code") = Some (PyStr c))
       /\ dict_getitem [(py "code", PyInt 7)] (py "witness_data") = Some (PyInt 7)
       /\ py_truthy (PyInt 7) = true))
  /\ (forall s, PyInt 7 <> PyStr s)
  /\ fst (api_compile json.loads (PyDict [(py "code", PyInt 7)]) [])
     = ([(py "cmr", PyNone);
         (py "error", PyStr (py "Server error: '" ++ type_name (PyInt 7)
                                ++ py "' object has no attribute 'strip'"))], 500).
Proof.
  assert (H : dict_getitem [(py "code", PyInt 7)] (py "code") = Some (PyInt 7))
    by reflexivity.
  assert (N : forall s, PyInt 7 <> PyStr s) by discriminate.
  split; [left; exact H|]. split; [exact N|].
  apply (api_compile_field_not_string json.loads [(py "code", PyInt 7)] (PyInt 7) []).
  - left. exact H.
  - exact N.
Defined.

Lemma api_compile_blank_code_witness :
  [(py "code", PyStr (py "  ")); (py "witness_data", PyStr wit_value_42)] <> []
  /\ (dict_getitem [(py "code", PyStr (py "  ")); (py "witness_data", PyStr wit_value_42)]
                   (py "code") = None
      \/ exists c,
          dict_getitem [(py "code", PyStr (py "  ")); (py "witness_data", PyStr wit_value_42)]
                       (py "code") = Some (PyStr c)
          /\ is_blank c = true)
  /\ (dict_getitem [(py "code", PyStr (py "  ")); (py "witness_data", PyStr wit_value_42)]
                   (py "witness_data") = None
      \/ exists w,
          dict_getitem [(py "code", PyStr (py "  ")); (py "witness_data", PyStr wit_value_42)]
                       (py "witness_data") = Some (PyStr w))
  /\ fst (api_compile json.loads
            (PyDict [(py "code", PyStr (py "  "));
                     (py "witness_data", PyStr wit_value_42)]) [])
     = ([(py "cmr", PyNone); (py "error", PyStr (py "Code is empty"))], 200).
Proof.
  assert (N : [(py "code", PyStr (py "  ")); (py "witness_data", PyStr wit_value_42)]
              <> []) by discriminate.
  assert (C : dict_getitem
                [(py "code", PyStr (py "  ")); (py "witness_data", PyStr wit_value_42)]
                (py "code") = None
              \/ exists c,
                dict_getitem
                  [(py "code", PyStr (py "  ")); (py "witness_data", PyStr wit_value_42)]
                  (py "code") = Some (PyStr c)
                /\ is_blank c = true).
  { right. exists (py "  "). split; reflexivity. }
  assert (W : dict_getitem
                [(py "code", PyStr (py "  ")); (py "witness_data", PyStr wit_value_42)]
                (py "witness_data") = None
              \/ exists w,
                dict_getitem
                  [(py "code", PyStr (py "  ")); (py "witness_data", PyStr wit_value_42)]
                  (py "witness_data") = Some (PyStr w)).
  { right. exists wit_value_42. reflexivity. }
  split; [exact N|]. split; [exact C|]. split; [exact W|].
  exact (api_compile_blank_code json.loads
           [(py "code", PyStr (py "  ")); (py "witness_data", PyStr wit_value_42)]
           [] N C W).
Defined.

Lemma api_compile_without_witness_witness :
  dict_getitem [(py "code", PyStr src_unit); (py "witness_data", PyStr (py " "))]
               (py "code") = Some (PyStr src_unit)
  /\ is_blank src_unit = false
  /\ (dict_getitem [(py "code", PyStr src_unit); (py "witness_data", PyStr (py " "))]
                   (py "witness_data") = None
      \/ (exists w0,
             dict_getitem [(py "code", PyStr src_unit); (py "witness_data", PyStr (py " "))]
                          (py "witness_data") = Some w0
             /\ py_truthy w0 = false)
      \/ (exists w,
             dict_getitem [(py "code", PyStr src_unit); (py "witness_data", PyStr (py " "))]
                          (py "witness_data") = Some (PyStr w)
             /\ is_blank w = true))
  /\ fst (api_compile json.loads
            (PyDict [(py "code", PyStr src_unit);
                     (py "witness_data", PyStr (py " "))]) [])
     = ([(py "cmr", PyStr placeholder_cmr); (py "error", PyNone)], 200).
Proof.
  assert (W : dict_getitem
                [(py "code", PyStr src_unit); (py "witness_data", PyStr (py " "))]
                (py "witness_data") = None
              \/ (exists w0,
                     dict_getitem
                       [(py "code", PyStr src_unit); (py "witness_data", PyStr (py " "))]
                       (py "witness_data") = Some w0
                     /\ py_truthy w0 = false)
              \/ (exists w,
                     dict_getitem
                       [(py "code", PyStr src_unit); (py "witness_data", PyStr (py " "))]
                       (py "witness_data") = Some (PyStr w)
                     /\ is_blank w = true)).
  { right; right. exists (py " "). split; reflexivity. }
  split; [reflexivity|]. split; [reflexivity|]. split; [exact W|].
  apply (api_compile_without_witness json.loads
           [(py "code", PyStr src_unit); (py "witness_data", PyStr (py " "))]
           src_unit []); [reflexivity | reflexivity | exact W].
Defined.

Lemma api_compile_with_witness_witness :
  dict_getitem [(py "code", PyStr src_witness_value);
                (py "witness_data", PyStr wit_value_42)]
               (py "code") = Some (PyStr src_witness_value)
  /\ dict_getitem [(py "code", PyStr src_witness_value);
                   (py "witness_data", PyStr wit_value_42)]
                  (py "witness_data") = Some (PyStr wit_value_42)
  /\ is_blank src_witness_value = false /\ is_blank wit_value_42 = false
  /\ json.loads (strip wit_value_42) = inl (PyDict [(py "VALUE", PyInt 42)])
  /\ py_len (PyDict [(py "VALUE", PyInt 42)]) = inl 1
  /\ fst (api_compile json.loads
            (PyDict [(py "code", PyStr src_witness_value);
                     (py "witness_data", PyStr wit_value_42)]) [])
     = ([(py "cmr", PyStr placeholder_cmr); (py "error", PyNone)]
          ++ (if py_truthy (PyDict [(py "VALUE", PyInt 42)])
              then [(py "witness_data", PyDict [(py "VALUE", PyInt 42)])] else []), 200).
Proof.
  repeat (split; [vm_compute; reflexivity|]).
  apply (api_compile_with_witness json.loads
           [(py "code", PyStr src_witness_value); (py "witness_data", PyStr wit_value_42)]
           src_witness_value wit_value_42 (PyDict [(py "VALUE", PyInt 42)]) 1 []);
    vm_compute; reflexivity.
Defined.

Lemma api_compile_invalid_json_witness :
  dict_getitem [(py "code", PyStr src_witness_value);
                (py "witness_data", PyStr wit_not_json)]
               (py "code") = Some (PyStr src_witness_value)
  /\ dict_getitem [(py "code", PyStr src_witness_value);
                   (py "witness_data", PyStr wit_not_json)]
                  (py "witness_data") = Some (PyStr wit_not_json)
  /\ is_blank src_witness_value = false /\ is_blank wit_not_json = false
  /\ json.loads (strip wit_not_json)
     = inr (JSONDecodeError (py "Expecting value") wit_not_json 0)
  /\ fst (api_compile json.loads
            (PyDict [(py "code", PyStr src_witness_value);
                     (py "witness_data", PyStr wit_not_json)]) [])
     = ([(py "cmr", PyNone);
         (py "error",
          PyStr (py "Invalid JSON: "
                    ++ exception_str
                         (JSONDecodeError (py "Expecting value") wit_not_json 0)))], 200).
Proof.
  repeat (split; [vm_compute; reflexivity|]).
  apply (api_compile_invalid_json json.loads
           [(py "code", PyStr src_witness_value); (py "witness_data", PyStr wit_not_json)]
           src_witness_value wit_not_json (py "Expecting value") wit_not_json 0 []);
    vm_compute; reflexivity.
Defined.

(** ** [api_encode_base64] *)

Lemma api_encode_base64_falsy (data : pyobj) (l : log) :
  py_truthy data = false ->
  api_encode_base64 data l = (([(py "error", PyStr (py "No data provided"))], 400), l).
Proof.
  intros T. unfold api_encode_base64, try_except, api_encode_base64_body, hbind.
  rewrite T. reflexivity.
Qed.

(** [api_encode_base64] on a truthy body, step by step. *)
Lemma api_encode_base64_truthy (data : pyobj) (l : log) :
  py_truthy data = true ->
  api_encode_base64 data l =
  match py_contains data (py "data") with
  | inr e => encode_failed e l
  | inl false => (([(py "error", PyStr (py "No data provided"))], 400), l)
  | inl true =>
      match py_getitem data (py "data") with
      | inr e => encode_failed e l
      | inl text =>
          match py_encode text with
          | inr e => encode_failed e l
          | inl b =>
              match utf8_decode (b64encode b) with
              | inr e => encode_failed e l
              | inl encoded => (([(py "encoded", PyStr encoded)], 200), l)
              end
          end
      end
  end.
Proof.
  intros T. unfold api_encode_base64, try_except, api_encode_base64_body, hbind, hlift, hret.
  rewrite T. cbn [negb].
  destruct (py_contains data (py "data")) as [[|]|e]; try reflexivity.
  cbn [negb].
  destruct (py_getitem data (py "data")) as [text|e]; [|reflexivity].
  destruct (py_encode text) as [b|e]; [|reflexivity].
  destruct (utf8_decode (b64encode b)) as [encoded|e]; reflexivity.
Qed.

(** X18. On a body with the key [data], [api_encode_base64] answers what
    [encode_base64] of the streamlit application computes: 200 with the
    encoded text under [encoded] for a string that [encode_base64] encodes,
    500 with the text of the exception when it raises, and 500 with the
    [AttributeError] of [encode] when the value is not a string.  The log is
    written only on a failure. *)
Theorem api_encode_base64_field (d : list (pystr * pyobj)) (v : pyobj) (l : log) :
  dict_getitem d (py "data") = Some v ->
  api_encode_base64 (PyDict d) l =
  match v with
  | PyStr s =>
      match encode_base64 s with
      | inl r => (([(py "encoded", PyStr r)], 200), l)
      | inr e => encode_failed e l
      end
  | _ => encode_failed (no_attribute v "encode") l
  end.
Proof.
  intros D.
  assert (T : py_truthy (PyDict d) = true) by (destruct d; [discriminate D | reflexivity]).
  rewrite api_encode_base64_truthy by exact T.
  cbn [py_contains py_getitem]. rewrite D.
  destruct v as [|b|z|f|s|vl|vd]; try reflexivity.
  cbn [py_encode]. unfold encode_base64.
  destruct (utf8_encode s) as [b|e]; reflexivity.
Qed.

(** X19. [api_encode_base64] answers 400 exactly when the body is missing
    or falsy, or is a [dict], a [list] or a [str] that does not contain
    ["data"]. *)
Theorem api_encode_base64_status_400 (data : pyobj) (l : log) :
  snd (fst (api_encode_base64 data l)) = 400
  <-> (py_truthy data = false \/ py_contains data (py "data") = inl false).
Proof.
  destruct (py_truthy data) eqn:T.
  - rewrite api_encode_base64_truthy by exact T.
    destruct (py_contains data (py "data")) as [[|]|e].
    + split; [|intros [H|H]; discriminate H].
      destruct (py_getitem data (py "data")) as [text|e]; [|discriminate].
      destruct (py_encode text) as [b|e]; [|discriminate].
      destruct (utf8_decode (b64encode b)) as [encoded|e]; discriminate.
    + split; auto.
    + split; [discriminate | intros [H|H]; discriminate H].
  - rewrite api_encode_base64_falsy by exact T. split; auto.
Qed.

(** X20. Every answer of [api_encode_base64] has one key: [encoded], a
    string, with the status 200, or [error], a string, with the status 400
    or 500. *)
Theorem api_encode_base64_one_key (data : pyobj) (l : log) :
  (exists r, fst (api_encode_base64 data l) = ([(py "encoded", PyStr r)], 200))
  \/ (exists msg status,
         fst (api_encode_base64 data l) = ([(py "error", PyStr msg)], status)
         /\ (status = 400 \/ status = 500)).
Proof.
  destruct (py_truthy data) eqn:T.
  - rewrite api_encode_base64_truthy by exact T.
    destruct (py_contains data (py "data")) as [[|]|e];
      [| right; do 2 eexists; split; [reflexivity | auto]
       | right; do 2 eexists; split; [reflexivity | auto]].
    destruct (py_getitem data (py "data")) as [text|e];
      [| right; do 2 eexists; split; [reflexivity | auto]].
    destruct (py_encode text) as [b|e];
      [| right; do 2 eexists; split; [reflexivity | auto]].
    destruct (utf8_decode (b64encode b)) as [encoded|e];
      [left; eexists; reflexivity | right; do 2 eexists; split; [reflexivity | auto]].
  - rewrite api_encode_base64_falsy by exact T.
    right. do 2 eexists. split; [reflexivity | auto].
Qed.

(** X21. A body that is not a [dict] passes the test ['data' not in data]
    when it is a list with the element ["data"] or a string that contains
    ["data"]; the subscript then raises, and the answer is 500 with the text
    of the [TypeError]. *)
Theorem api_encode_base64_not_a_dict (l : log) :
  (forall items, existsb (eq_str (py "data")) items = true ->
                 fst (api_encode_base64 (PyList items) l)
                 = ([(py "error",
                      PyStr (py "list indices must be integers or slices, not str"))], 500))
  /\ (forall s, str_contains (py "data") s = true ->
                fst (api_encode_base64 (PyStr s) l)
                = ([(py "error",
                     PyStr (py "string indices must be integers, not 'str'"))], 500)).
Proof.
  split.
  - intros items H.
    assert (T : py_truthy (PyList items) = true)
      by (destruct items; [discriminate H | reflexivity]).
    rewrite api_encode_base64_truthy by exact T. cbn [py_contains]. rewrite H. reflexivity.
  - intros s H.
    assert (T : py_truthy (PyStr s) = true)
      by (destruct s; [discriminate H | reflexivity]).
    rewrite api_encode_base64_truthy by exact T. cbn [py_contains]. rewrite H. reflexivity.
Qed.

Lemma api_encode_base64_field_witness :
  dict_getitem [(py "data", PyStr (py "hi"))] (py "data") = Some (PyStr (py "hi"))
  /\ encode_base64 (py "hi") = inl (py "aGk=")
  /\ api_encode_base64 (PyDict [(py "data", PyStr (py "hi"))]) []
     = match PyStr (py "hi") with
       | PyStr s =>
           match encode_base64 s with
           | inl r => (([(py "encoded", PyStr r)], 200), [])
           | inr e => encode_failed e []
           end
       | _ => encode_failed (no_attribute (PyStr (py "hi")) "encode") []
       end.
Proof.
  split; [reflexivity|]. split; [reflexivity|].
  apply (api_encode_base64_field [(py "data", PyStr (py "hi"))] (PyStr (py "hi")) []).
  reflexivity.
Defined.

Lemma api_encode_base64_not_a_dict_witness :
  existsb (eq_str (py "data")) [PyInt 1; PyStr (py "data")] = true
  /\ fst (api_encode_base64 (PyList [PyInt 1; PyStr (py "data")]) [])
     = ([(py "error",
          PyStr (py "list indices must be integers or slices, not str"))], 500)
  /\ str_contains (py "data") (py "no data") = true
  /\ fst (api_encode_base64 (PyStr (py "no data")) [])
     = ([(py "error", PyStr (py "string indices must be integers, not 'str'"))], 500).
Proof.
  split; [reflexivity|].
  split; [apply (proj1 (api_encode_base64_not_a_dict [])); reflexivity|].
  split; [reflexivity|].
  apply (proj2 (api_encode_base64_not_a_dict [])). reflexivity.
Defined.
